(** * fs/sdcardfs/super.c: superblock operations of the sdcardfs stacked file system

    A shallow embedding of the super_operations of sdcardfs and the proofs of
    the properties its design document states about them.  Kernel objects
    reached through pointers are passed and returned as values; everything
    the callbacks do to the rest of the kernel (credentials, kmalloc, the
    lower file system, printk) goes through one state record [kernel] and is
    recorded, call by call, in its log. *)

From Stdlib Require Import ZArith Ascii String List Bool Lia DecimalString.
From stdpp Require Import base gmap sets list strings.

Local Open Scope string_scope.
Local Open Scope list_scope.
Local Open Scope Z_scope.

(** ** What the kernel headers provide

    [super.c] includes "sdcardfs.h" and <linux/syscalls.h>.  The constants
    they define, and the text the kernel's %s conversion prints for a NULL
    string, are not fixed by [super.c]; they are collected in a class so
    that every result holds for whatever values the rest of the kernel gives
    them. *)

(** The C data model of the target: it decides the width of [long], the type
    of [kstatfs.f_bsize]. *)
Inductive data_model := ILP32 | LP64.

Class Headers := {
  PATH_MAX : Z;               (* linux/limits.h *)
  GFP_KERNEL : Z;             (* linux/gfp.h *)
  EINVAL : Z;                 (* asm-generic/errno-base.h *)
  ENOMEM : Z;
  MS_RDONLY : Z;              (* linux/fs.h *)
  MS_MANDLOCK : Z;
  MS_SILENT : Z;
  AT_FDCWD : Z;               (* linux/fcntl.h *)
  RENAME_NOPROPAGATE : Z;     (* flag of renameat2 *)
  SDCARDFS_SUPER_MAGIC : Z;   (* as stored in the long f_type *)
  null_string : string;       (* what the %s conversion prints for NULL *)
  target : data_model
}.

(** One assignment of values, the usual ones of a 64-bit Linux 3.18 (the
    vendor flag RENAME_NOPROPAGATE has no usual value; any one does), used
    to run the model on concrete inputs. *)
Definition linux_3_18 : Headers := {|
  PATH_MAX := 4096;
  GFP_KERNEL := 208;
  EINVAL := 22;
  ENOMEM := 12;
  MS_RDONLY := 1;
  MS_MANDLOCK := 64;
  MS_SILENT := 32768;
  AT_FDCWD := -100;
  RENAME_NOPROPAGATE := 8;
  SDCARDFS_SUPER_MAGIC := 0xb550ca10;
  null_string := "(null)";
  target := LP64
|}.

(** ** Machine integers *)

Definition wrap (bits x : Z) : Z := x mod 2 ^ bits.
Definition u32 : Z -> Z := wrap 32.
Definition u64 : Z -> Z := wrap 64.

Definition BITS_PER_LONG (m : data_model) : Z :=
  match m with ILP32 => 32 | LP64 => 64 end.

(** The values a [long] can hold. *)
Definition is_long (m : data_model) (x : Z) : Prop :=
  - 2 ^ (BITS_PER_LONG m - 1) <= x < 2 ^ (BITS_PER_LONG m - 1).

(** [u / l] for [unsigned int u] and [long l], [l <> 0], after the usual
    arithmetic conversions: where [long] holds every [unsigned int] (LP64)
    both operands become [long] and the division is signed, truncating
    toward zero; otherwise (ILP32) both become [unsigned long]. *)
Definition div_uint_long (m : data_model) (u l : Z) : Z :=
  match m with
  | LP64 => Z.quot u l
  | ILP32 => Z.quot u (wrap 32 l)
  end.

(** ** Data model *)

(** C strings. [snprintf size s] is what [snprintf(buf, size, ...)] leaves in
    [buf] when the formatted text is [s]: at most [size - 1] characters. *)
Fixpoint truncate (n : nat) (s : string) : string :=
  match n, s with
  | S n', String c s' => String c (truncate n' s')
  | _, _ => EmptyString
  end.

Definition snprintf (size : Z) (s : string) : string :=
  truncate (Z.to_nat (size - 1)) s.

(** Modelled from the spec: the enum [type_t] of sdcardfs.h, which is not
    part of the sources at hand; the mount state lists its values as
    NONE, DEFAULT, READ, WRITE and FULL-or-other. *)
Inductive type_t := TYPE_NONE | TYPE_DEFAULT | TYPE_READ | TYPE_WRITE | TYPE_FULL.

Definition type_eqb (a b : type_t) : bool :=
  match a, b with
  | TYPE_NONE, TYPE_NONE | TYPE_DEFAULT, TYPE_DEFAULT | TYPE_READ, TYPE_READ
  | TYPE_WRITE, TYPE_WRITE | TYPE_FULL, TYPE_FULL => true
  | _, _ => false
  end.

(** Modelled from the spec: struct sdcardfs_mount_options of sdcardfs.h
    (reservation size in MB, low-level uid/gid, secondary gid and mask,
    multi-user flag, nullable label, type).  [reserved_mb] is printed with
    %u by sdcardfs_show_options: an unsigned int. *)
Record sdcardfs_mount_options := {
  fs_low_uid : Z;
  fs_low_gid : Z;
  sdfs_gid : Z;
  sdfs_mask : Z;
  multi_user : bool;
  label : option string;
  type : type_t;
  reserved_mb : Z
}.

Record sdcardfs_sb_info := {
  options : sdcardfs_mount_options
}.

(** A mounted sdcardfs superblock: [s_fs_info] is set by fill_super and the
    callbacks below dereference it without a check. *)
Record super_block := {
  s_fs_info : sdcardfs_sb_info
}.

Definition SDCARDFS_SB (sb : super_block) : sdcardfs_sb_info := s_fs_info sb.

(** Addresses of kernel objects owned by somebody else. *)
Definition addr := positive.

Record dentry := {
  d_sb : super_block;
  d_lower_path : addr            (* the lower path kept in d_fsdata *)
}.

(** struct kstatfs (linux/statfs.h): [f_type] and [f_bsize] are [long], the
    block and file counts are [u64]. *)
Record kstatfs := {
  f_type : Z;
  f_bsize : Z;
  f_blocks : Z;
  f_bfree : Z;
  f_bavail : Z;
  f_files : Z;
  f_ffree : Z;
  f_namelen : Z;
  f_frsize : Z;
  f_flags : Z
}.

Definition set_f_type (b : kstatfs) (v : Z) : kstatfs :=
  {| f_type := v; f_bsize := f_bsize b; f_blocks := f_blocks b;
     f_bfree := f_bfree b; f_bavail := f_bavail b; f_files := f_files b;
     f_ffree := f_ffree b; f_namelen := f_namelen b; f_frsize := f_frsize b;
     f_flags := f_flags b |}.

Definition set_f_blocks (b : kstatfs) (v : Z) : kstatfs :=
  {| f_type := f_type b; f_bsize := f_bsize b; f_blocks := v;
     f_bfree := f_bfree b; f_bavail := f_bavail b; f_files := f_files b;
     f_ffree := f_ffree b; f_namelen := f_namelen b; f_frsize := f_frsize b;
     f_flags := f_flags b |}.

Definition set_f_bfree (b : kstatfs) (v : Z) : kstatfs :=
  {| f_type := f_type b; f_bsize := f_bsize b; f_blocks := f_blocks b;
     f_bfree := v; f_bavail := f_bavail b; f_files := f_files b;
     f_ffree := f_ffree b; f_namelen := f_namelen b; f_frsize := f_frsize b;
     f_flags := f_flags b |}.

Definition set_f_bavail (b : kstatfs) (v : Z) : kstatfs :=
  {| f_type := f_type b; f_bsize := f_bsize b; f_blocks := f_blocks b;
     f_bfree := f_bfree b; f_bavail := v; f_files := f_files b;
     f_ffree := f_ffree b; f_namelen := f_namelen b; f_frsize := f_frsize b;
     f_flags := f_flags b |}.

(** The counts of a [kstatfs] are [u64] values. *)
Definition kstatfs_wf (b : kstatfs) : Prop :=
  0 <= f_blocks b < 2 ^ 64 /\ 0 <= f_bfree b < 2 ^ 64 /\ 0 <= f_bavail b < 2 ^ 64.

(** Credentials, as far as override_fsids touches them. *)
Record cred := { fsuid : Z; fsgid : Z }.

Inductive mm_segment_t := USER_DS | KERNEL_DS.

(** struct inode, as far as super.c touches it. *)
Record inode := {
  i_sb : super_block;
  i_version : Z
}.

(** Modelled from the spec: struct sdcardfs_inode_info of sdcardfs.h, the
    stacked inode object: it embeds exactly one backing-inode reference in
    front of the VFS inode. *)
Record sdcardfs_inode_info := {
  lower_inode : option addr;
  vfs_inode : inode
}.

(** The slab cache behind [sdcardfs_inode_cachep]: recycled objects keep the
    contents they were freed with, and untouched slab memory has contents of
    its own. *)
Record kmem_cache := {
  kc_free : list sdcardfs_inode_info;
  kc_fresh : sdcardfs_inode_info;
  kc_in_use : Z
}.

(** ** Calls into the rest of the kernel, as logged *)

Inductive event :=
| Printk (fmt : string) (args : list Z)
| PathGet (p : addr)
| PathPut (p : addr)
| OverrideFsids (uid gid : Z) (saved : option cred)
| RevertFsids (saved : cred)
| Kmalloc (size flags : Z) (p : option addr)
| Kfree (p : addr)
| SetFs (seg : mm_segment_t)
| Unlinkat (dfd : Z) (pathname : string) (propagate : bool) (status : Z)
| Renameat2 (olddfd : Z) (oldname : string) (newdfd : Z) (newname : string)
            (flags : Z) (status : Z)
| TruncateInodePages (lstart : Z)
| ClearInode
| Iput (i : option addr)
| KmemCacheAlloc (ok : bool)
| KmemCacheFree.

(** *** Reading a log *)

(** The status each delete or rename returned, in call order. *)
Definition op_status (e : event) : option Z :=
  match e with
  | Unlinkat _ _ _ status => Some status
  | Renameat2 _ _ _ _ _ status => Some status
  | _ => None
  end.

Definition statuses (evs : list event) : list Z := omap op_status evs.

(** The paths handed to do_unlinkat and the path pairs handed to
    sys_renameat2. *)
Definition unlink_target (e : event) : option string :=
  match e with Unlinkat _ pathname _ _ => Some pathname | _ => None end.

Definition rename_target (e : event) : option (string * string) :=
  match e with
  | Renameat2 _ oldname _ newname _ _ => Some (oldname, newname)
  | _ => None
  end.

Definition unlinked (evs : list event) : list string := omap unlink_target evs.
Definition renamed (evs : list event) : list (string * string) := omap rename_target evs.

(** No override_fsids and no kmalloc of the log came back with NULL. *)
Definition failed_allocation (e : event) : bool :=
  match e with
  | OverrideFsids _ _ None | Kmalloc _ _ None => true
  | _ => false
  end.

Definition allocations_succeed (evs : list event) : bool :=
  forallb (fun e => negb (failed_allocation e)) evs.

(** Credential contexts acquired and reverted, blocks allocated and freed,
    inodes released. *)
Definition acquired (evs : list event) : list cred :=
  omap (fun e => match e with OverrideFsids _ _ (Some c) => Some c | _ => None end) evs.

Definition reverted (evs : list event) : list cred :=
  omap (fun e => match e with RevertFsids c => Some c | _ => None end) evs.

Definition allocated (evs : list event) : list addr :=
  omap (fun e => match e with Kmalloc _ _ (Some p) => Some p | _ => None end) evs.

Definition freed (evs : list event) : list addr :=
  omap (fun e => match e with Kfree p => Some p | _ => None end) evs.

Definition released (evs : list event) : list (option addr) :=
  omap (fun e => match e with Iput i => Some i | _ => None end) evs.

(** ** The projection table of the design document

    Section 3 of the design document derives four physical root prefixes
    from the mount type; these definitions follow its table, to be compared
    with what the code does. *)

Inductive projection := RuntimeDefault | RuntimeRead | RuntimeWrite | Storage.

Definition projections : list projection :=
  [RuntimeDefault; RuntimeRead; RuntimeWrite; Storage].

Definition spec_prefix (p : projection) : string :=
  match p with
  | RuntimeDefault => "/mnt/runtime/default/"
  | RuntimeRead => "/mnt/runtime/read/"
  | RuntimeWrite => "/mnt/runtime/write/"
  | Storage => "/storage/"
  end.

#[global] Instance type_t_eq_dec : EqDecision type_t.
Proof. solve_decision. Defined.

Definition spec_active (t : type_t) (p : projection) : bool :=
  match p with
  | RuntimeDefault => bool_decide (t ∉ [TYPE_NONE; TYPE_DEFAULT])
  | RuntimeRead => bool_decide (t ∉ [TYPE_NONE; TYPE_READ])
  | RuntimeWrite => bool_decide (t ∉ [TYPE_NONE; TYPE_WRITE])
  | Storage => bool_decide (t ≠ TYPE_NONE)
  end.

(** prefix + label + relative path *)
Definition spec_path (lbl : string) (p : projection) (rel : string) : string :=
  spec_prefix p +:+ lbl +:+ rel.

(** ** The kernel state and the monad the callbacks run in *)

Section Super.

Context `{Headers}.

(** The lower file system and its name space are left abstract: [V] is its
    state, and the three services of it that super.c calls are parameters.
    Each one sees the credentials in force when it is called. *)
Context {V : Type}.
Variable unlinkat_service : cred -> Z -> string -> bool -> V -> Z * V.
Variable renameat2_service : cred -> Z -> string -> Z -> string -> Z -> V -> Z * V.
Variable statfs_service : addr -> kstatfs -> V -> (Z * kstatfs) * V.

Record kernel := {
  k_vfs : V;                        (* lower file system *)
  k_cred : cred;                    (* current->cred *)
  k_cred_live : Z;                  (* substituted credentials not yet put *)
  k_addr_limit : mm_segment_t;      (* get_fs() *)
  k_heap : gset addr;               (* live kmalloc blocks *)
  k_alloc_plan : list bool;         (* outcome of the coming allocations *)
  k_icount : gmap addr Z;           (* i_count of the lower inodes *)
  k_inode_cachep : kmem_cache;      (* sdcardfs_inode_cachep *)
  k_log : list event                (* calls made so far, oldest first *)
}.

Definition set_vfs (k : kernel) (v : V) : kernel :=
  {| k_vfs := v; k_cred := k_cred k; k_cred_live := k_cred_live k;
     k_addr_limit := k_addr_limit k; k_heap := k_heap k;
     k_alloc_plan := k_alloc_plan k; k_icount := k_icount k;
     k_inode_cachep := k_inode_cachep k; k_log := k_log k |}.

Definition set_cred (k : kernel) (c : cred) (live : Z) : kernel :=
  {| k_vfs := k_vfs k; k_cred := c; k_cred_live := live;
     k_addr_limit := k_addr_limit k; k_heap := k_heap k;
     k_alloc_plan := k_alloc_plan k; k_icount := k_icount k;
     k_inode_cachep := k_inode_cachep k; k_log := k_log k |}.

Definition set_addr_limit (k : kernel) (seg : mm_segment_t) : kernel :=
  {| k_vfs := k_vfs k; k_cred := k_cred k; k_cred_live := k_cred_live k;
     k_addr_limit := seg; k_heap := k_heap k;
     k_alloc_plan := k_alloc_plan k; k_icount := k_icount k;
     k_inode_cachep := k_inode_cachep k; k_log := k_log k |}.

Definition set_heap (k : kernel) (h : gset addr) : kernel :=
  {| k_vfs := k_vfs k; k_cred := k_cred k; k_cred_live := k_cred_live k;
     k_addr_limit := k_addr_limit k; k_heap := h;
     k_alloc_plan := k_alloc_plan k; k_icount := k_icount k;
     k_inode_cachep := k_inode_cachep k; k_log := k_log k |}.

Definition set_alloc_plan (k : kernel) (p : list bool) : kernel :=
  {| k_vfs := k_vfs k; k_cred := k_cred k; k_cred_live := k_cred_live k;
     k_addr_limit := k_addr_limit k; k_heap := k_heap k;
     k_alloc_plan := p; k_icount := k_icount k;
     k_inode_cachep := k_inode_cachep k; k_log := k_log k |}.

Definition set_icount (k : kernel) (m : gmap addr Z) : kernel :=
  {| k_vfs := k_vfs k; k_cred := k_cred k; k_cred_live := k_cred_live k;
     k_addr_limit := k_addr_limit k; k_heap := k_heap k;
     k_alloc_plan := k_alloc_plan k; k_icount := m;
     k_inode_cachep := k_inode_cachep k; k_log := k_log k |}.

Definition set_inode_cachep (k : kernel) (c : kmem_cache) : kernel :=
  {| k_vfs := k_vfs k; k_cred := k_cred k; k_cred_live := k_cred_live k;
     k_addr_limit := k_addr_limit k; k_heap := k_heap k;
     k_alloc_plan := k_alloc_plan k; k_icount := k_icount k;
     k_inode_cachep := c; k_log := k_log k |}.

Definition set_log (k : kernel) (l : list event) : kernel :=
  {| k_vfs := k_vfs k; k_cred := k_cred k; k_cred_live := k_cred_live k;
     k_addr_limit := k_addr_limit k; k_heap := k_heap k;
     k_alloc_plan := k_alloc_plan k; k_icount := k_icount k;
     k_inode_cachep := k_inode_cachep k; k_log := l |}.

Definition M (A : Type) : Type := kernel -> A * kernel.

Definition pure {A} (a : A) : M A := fun k => (a, k).

Definition bind {A B} (m : M A) (f : A -> M B) : M B :=
  fun k => let (a, k') := m k in f a k'.

Notation "x <- m ;; f" := (bind m (fun x => f))
  (at level 100, m at next level, right associativity).
Notation "m ;; f" := (bind m (fun _ => f))
  (at level 100, right associativity).

Definition log (e : event) : M unit :=
  fun k => (tt, set_log k (k_log k ++ [e])).

(** The events a call adds to the log. *)
Definition emitted (k k' : kernel) : list event :=
  drop (length (k_log k)) (k_log k').

(** *** Kernel services *)

Definition printk (fmt : string) (args : list Z) : M unit :=
  log (Printk fmt args).

(** An allocation succeeds unless the plan says otherwise. *)
Definition alloc_attempt : M bool :=
  fun k => match k_alloc_plan k with
           | [] => (true, k)
           | ok :: plan => (ok, set_alloc_plan k plan)
           end.

(** Modelled from the spec: override_fsids and revert_fsids of sdcardfs.h,
    the credential-substitution service [acquire(uid, gid) -> identity |
    fail(OOM)] and [restore(identity)]: acquiring installs the substituted
    identity and hands back the one it replaces, or fails and changes
    nothing. *)
Definition override_fsids (uid gid : Z) : M (option cred) :=
  ok <- alloc_attempt ;;
  if ok : bool then
    fun k =>
      let old := k_cred k in
      (Some old,
       snd (log (OverrideFsids uid gid (Some old))
                (set_cred k {| fsuid := uid; fsgid := gid |} (k_cred_live k + 1))))
  else
    log (OverrideFsids uid gid None) ;; pure None.

Definition revert_fsids (old : cred) : M unit :=
  fun k => log (RevertFsids old) (set_cred k old (k_cred_live k - 1)).

(** Modelled from the spec: the path-buffer allocator, [fail(OOM)] on
    exhaustion.  kmalloc hands out a block that is not live, or NULL; kfree
    ends its life. *)
Definition kmalloc (size flags : Z) : M (option addr) :=
  ok <- alloc_attempt ;;
  if ok : bool then
    fun k =>
      let p := fresh (k_heap k) in
      (Some p, snd (log (Kmalloc size flags (Some p)) (set_heap k ({[ p ]} ∪ k_heap k))))
  else
    log (Kmalloc size flags None) ;; pure None.

Definition kfree (p : addr) : M unit :=
  fun k => log (Kfree p) (set_heap k (k_heap k ∖ {[ p ]})).

Definition get_fs : M mm_segment_t := fun k => (k_addr_limit k, k).

Definition set_fs (seg : mm_segment_t) : M unit :=
  fun k => log (SetFs seg) (set_addr_limit k seg).

Definition do_unlinkat (dfd : Z) (pathname : string) (propagate : bool) : M Z :=
  fun k =>
    let r := unlinkat_service (k_cred k) dfd pathname propagate (k_vfs k) in
    let status := fst r in
    (status, snd (log (Unlinkat dfd pathname propagate status) (set_vfs k (snd r)))).

Definition sys_renameat2 (olddfd : Z) (oldname : string) (newdfd : Z)
    (newname : string) (flags : Z) : M Z :=
  fun k =>
    let r :=
      renameat2_service (k_cred k) olddfd oldname newdfd newname flags (k_vfs k) in
    let status := fst r in
    (status,
     snd (log (Renameat2 olddfd oldname newdfd newname flags status)
              (set_vfs k (snd r)))).

Definition vfs_statfs (path : addr) (buf : kstatfs) : M (Z * kstatfs) :=
  fun k =>
    let r := statfs_service path buf (k_vfs k) in
    (fst r, set_vfs k (snd r)).

Definition sdcardfs_get_lower_path (dent : dentry) : M addr :=
  log (PathGet (d_lower_path dent)) ;; pure (d_lower_path dent).

Definition sdcardfs_put_lower_path (dent : dentry) (lower_path : addr) : M unit :=
  log (PathPut lower_path).

Definition truncate_inode_pages (lstart : Z) : M unit :=
  log (TruncateInodePages lstart).

Definition clear_inode : M unit := log ClearInode.

(** Modelled from the spec: the release of a backing reference.  iput
    drops one reference of the inode it is given and does nothing for
    NULL. *)
Definition iput (i : option addr) : M unit :=
  log (Iput i) ;;
  match i with
  | None => pure tt
  | Some l => fun k => (tt, set_icount k (alter Z.pred l (k_icount k)))
  end.

(** Modelled from the spec: the object pool of stacked inodes,
    [allocate() -> object | out-of-memory] and [release(object)]. *)
Definition kmem_cache_alloc : M (option sdcardfs_inode_info) :=
  ok <- alloc_attempt ;;
  if ok : bool then
    log (KmemCacheAlloc true) ;;
    fun k =>
      let c := k_inode_cachep k in
      match kc_free c with
      | o :: rest =>
          (Some o, set_inode_cachep k {| kc_free := rest; kc_fresh := kc_fresh c;
                                         kc_in_use := kc_in_use c + 1 |})
      | [] =>
          (Some (kc_fresh c),
           set_inode_cachep k {| kc_free := []; kc_fresh := kc_fresh c;
                                 kc_in_use := kc_in_use c + 1 |})
      end
  else
    log (KmemCacheAlloc false) ;; pure None.

Definition kmem_cache_free (o : sdcardfs_inode_info) : M unit :=
  log KmemCacheFree ;;
  fun k =>
    let c := k_inode_cachep k in
    (tt, set_inode_cachep k {| kc_free := o :: kc_free c; kc_fresh := kc_fresh c;
                               kc_in_use := kc_in_use c - 1 |}).

(** Modelled from the spec: the accessors of sdcardfs.h for the binding of a
    stacked inode, [bind(stacked, backing)] storing the backing reference and
    the read that [unbind] starts with. *)
Definition sdcardfs_lower_inode (i : sdcardfs_inode_info) : option addr :=
  lower_inode i.

Definition sdcardfs_set_lower_inode (i : sdcardfs_inode_info) (val : option addr)
    : sdcardfs_inode_info :=
  {| lower_inode := val; vfs_inode := vfs_inode i |}.

(** The %s conversion of a [char *] that may be NULL. *)
Definition fmt_s (s : option string) : string :=
  match s with Some s => s | None => null_string end.

(** ** super.c *)

(** [sdcardfs_statfs(dentry, buf)]: the result is the returned [int] and the
    contents of [*buf] on return. *)
Definition sdcardfs_statfs (dent : dentry) (buf : kstatfs) : M (Z * kstatfs) :=
  let sbi := SDCARDFS_SB (d_sb dent) in
  lower_path <- sdcardfs_get_lower_path dent ;;
  r <- vfs_statfs lower_path buf ;;
  let err := fst r in
  let buf := snd r in
  sdcardfs_put_lower_path dent lower_path ;;
  if negb (reserved_mb (options sbi) =? 0) then
    (* Invalid statfs informations. *)
    if f_bsize buf =? 0 then
      printk "Returned block size is zero.\n" [] ;;
      pure (- EINVAL, buf)
    else
      let min_blocks :=
        u32 (div_uint_long target (u32 (u32 (reserved_mb (options sbi) * 1024) * 1024))
                           (f_bsize buf)) in
      let buf := set_f_blocks buf (u64 (f_blocks buf - min_blocks)) in
      let buf :=
        if f_bavail buf >? min_blocks
        then set_f_bavail buf (u64 (f_bavail buf - min_blocks))
        else set_f_bavail buf 0 in
      (* Make reserved blocks invisiable to media storage *)
      let buf := set_f_bfree buf (f_bavail buf) in
      (* set return buf to our f/s to avoid confusing user-level utils *)
      pure (err, set_f_type buf SDCARDFS_SUPER_MAGIC)
  else
    pure (err, set_f_type buf SDCARDFS_SUPER_MAGIC).

(** [sdcardfs_remount_fs(sb, flags, options)]: the result is the returned
    [int] together with [*sb] and [*flags] as the call leaves them. *)
Definition sdcardfs_remount_fs (sb : super_block) (flags : Z) (opts : string)
    : M (Z * super_block * Z) :=
  let err := 0 in
  if negb (Z.land flags (Z.lnot (Z.lor (Z.lor MS_RDONLY MS_MANDLOCK) MS_SILENT)) =? 0)
  then
    printk "sdcardfs: remount flags 0x%x unsupported\n" [flags] ;;
    let err := - EINVAL in
    pure (err, sb, flags)
  else
    pure (err, sb, flags).

(** [sdcardfs_evict_inode(inode)]: the result is the stacked inode object as
    the call leaves it. *)
Definition sdcardfs_evict_inode (inode : sdcardfs_inode_info) : M sdcardfs_inode_info :=
  truncate_inode_pages 0 ;;
  clear_inode ;;
  let lower_inode := sdcardfs_lower_inode inode in
  let inode := sdcardfs_set_lower_inode inode None in
  iput lower_inode ;;
  pure inode.

Definition sdcardfs_alloc_inode (sb : super_block) : M (option sdcardfs_inode_info) :=
  i <- kmem_cache_alloc ;;
  match i with
  | None => pure None
  | Some i =>
      (* memset everything up to the inode to 0 *)
      let i := {| lower_inode := None; vfs_inode := vfs_inode i |} in
      let i := {| lower_inode := lower_inode i;
                  vfs_inode := {| i_sb := i_sb (vfs_inode i); i_version := 1 |} |} in
      pure (Some i)
  end.

Definition sdcardfs_destroy_inode (inode : sdcardfs_inode_info) : M unit :=
  kmem_cache_free inode.

Definition sdcardfs_propagate_unlink (parent : inode) (pathname : string) : M Z :=
  let ret := 0 in
  let sbi := SDCARDFS_SB (i_sb parent) in
  saved_cred <- override_fsids 0 0 ;;
  match saved_cred with
  | None => pure (- ENOMEM)
  | Some saved_cred =>
  propagate_path <- kmalloc PATH_MAX GFP_KERNEL ;;
  match propagate_path with
  | None =>
      printk "sdcardfs: unlink propagate_path kmalloc fail\n" [] ;;
      revert_fsids saved_cred ;;
      pure (- ENOMEM)
  | Some propagate_path =>
  old_fs <- get_fs ;;
  set_fs KERNEL_DS ;;
  ret <- (if negb (type_eqb (type (options sbi)) TYPE_NONE)
             && negb (type_eqb (type (options sbi)) TYPE_DEFAULT)
          then
            do_unlinkat AT_FDCWD
              (snprintf PATH_MAX
                 ("/mnt/runtime/default/" +:+ fmt_s (label (options sbi)) +:+ pathname))
              false
          else pure ret) ;;
  ret <- (if negb (type_eqb (type (options sbi)) TYPE_NONE)
             && negb (type_eqb (type (options sbi)) TYPE_READ)
          then
            do_unlinkat AT_FDCWD
              (snprintf PATH_MAX
                 ("/mnt/runtime/read/" +:+ fmt_s (label (options sbi)) +:+ pathname))
              false
          else pure ret) ;;
  ret <- (if negb (type_eqb (type (options sbi)) TYPE_NONE)
             && negb (type_eqb (type (options sbi)) TYPE_WRITE)
          then
            do_unlinkat AT_FDCWD
              (snprintf PATH_MAX
                 ("/mnt/runtime/write/" +:+ fmt_s (label (options sbi)) +:+ pathname))
              false
          else pure ret) ;;
  ret <- (if negb (type_eqb (type (options sbi)) TYPE_NONE)
          then
            do_unlinkat AT_FDCWD
              (snprintf PATH_MAX
                 ("/storage/" +:+ fmt_s (label (options sbi)) +:+ pathname))
              false
          else pure ret) ;;
  set_fs old_fs ;;
  revert_fsids saved_cred ;;
  kfree propagate_path ;;
  pure ret
  end
  end.

Definition sdcardfs_propagate_rename (parent : inode) (oldname newname : string) : M Z :=
  let ret := 0 in
  let sbi := SDCARDFS_SB (i_sb parent) in
  saved_cred <- override_fsids 0 0 ;;
  match saved_cred with
  | None => pure (- ENOMEM)
  | Some saved_cred =>
  propagate_old_path <- kmalloc PATH_MAX GFP_KERNEL ;;
  match propagate_old_path with
  | None =>
      printk "sdcardfs: unlink propagate_old_path kmalloc fail\n" [] ;;
      revert_fsids saved_cred ;;
      pure (- ENOMEM)
  | Some propagate_old_path =>
  propagete_new_path <- kmalloc PATH_MAX GFP_KERNEL ;;
  match propagete_new_path with
  | None =>
      printk "sdcardfs: unlink propagate_new_path kmalloc fail\n" [] ;;
      revert_fsids saved_cred ;;
      kfree propagate_old_path ;;
      pure (- ENOMEM)
  | Some propagete_new_path =>
  old_fs <- get_fs ;;
  set_fs KERNEL_DS ;;
  ret <- (if negb (type_eqb (type (options sbi)) TYPE_NONE)
             && negb (type_eqb (type (options sbi)) TYPE_DEFAULT)
          then
            sys_renameat2 AT_FDCWD
              (snprintf PATH_MAX
                 ("/mnt/runtime/default/" +:+ fmt_s (label (options sbi)) +:+ oldname))
              AT_FDCWD
              (snprintf PATH_MAX
                 ("/mnt/runtime/default/" +:+ fmt_s (label (options sbi)) +:+ newname))
              RENAME_NOPROPAGATE
          else pure ret) ;;
  ret <- (if negb (type_eqb (type (options sbi)) TYPE_NONE)
             && negb (type_eqb (type (options sbi)) TYPE_READ)
          then
            sys_renameat2 AT_FDCWD
              (snprintf PATH_MAX
                 ("/mnt/runtime/read/" +:+ fmt_s (label (options sbi)) +:+ oldname))
              AT_FDCWD
              (snprintf PATH_MAX
                 ("/mnt/runtime/read/" +:+ fmt_s (label (options sbi)) +:+ newname))
              RENAME_NOPROPAGATE
          else pure ret) ;;
  ret <- (if negb (type_eqb (type (options sbi)) TYPE_NONE)
             && negb (type_eqb (type (options sbi)) TYPE_WRITE)
          then
            sys_renameat2 AT_FDCWD
              (snprintf PATH_MAX
                 ("/mnt/runtime/write/" +:+ fmt_s (label (options sbi)) +:+ oldname))
              AT_FDCWD
              (snprintf PATH_MAX
                 ("/mnt/runtime/write/" +:+ fmt_s (label (options sbi)) +:+ newname))
              RENAME_NOPROPAGATE
          else pure ret) ;;
  ret <- (if negb (type_eqb (type (options sbi)) TYPE_NONE)
          then
            sys_renameat2 AT_FDCWD
              (snprintf PATH_MAX
                 ("/storage/" +:+ fmt_s (label (options sbi)) +:+ oldname))
              AT_FDCWD
              (snprintf PATH_MAX
                 ("/storage/" +:+ fmt_s (label (options sbi)) +:+ newname))
              RENAME_NOPROPAGATE
          else pure ret) ;;
  set_fs old_fs ;;
  revert_fsids saved_cred ;;
  kfree propagate_old_path ;;
  kfree propagete_new_path ;;
  pure ret
  end
  end
  end.

(** *** The life of one stacked inode

    Allocated, bound to the backing inode [l], evicted, released to the
    cache; [None] when the allocation fails. *)
Definition inode_lifecycle (sb : super_block) (l : addr)
    : M (option sdcardfs_inode_info) :=
  i <- sdcardfs_alloc_inode sb ;;
  match i with
  | None => pure None
  | Some i =>
      let i := sdcardfs_set_lower_inode i (Some l) in
      i <- sdcardfs_evict_inode i ;;
      sdcardfs_destroy_inode i ;;
      pure (Some i)
  end.

(** *** The fan-out as a fold

    What the design document describes: the operation replayed, in order, on
    each path of a list, every attempt made whatever the earlier ones
    returned, the status of the last one kept.  The result is the log of the
    attempts, the final status and the final state of the lower file
    system. *)
Fixpoint replay_unlinks (c : cred) (paths : list string) (ret : Z) (v : V)
    : list event * Z * V :=
  match paths with
  | [] => ([], ret, v)
  | pathname :: rest =>
      let r := unlinkat_service c AT_FDCWD pathname false v in
      let status := fst r in
      let r' := replay_unlinks c rest status (snd r) in
      (Unlinkat AT_FDCWD pathname false status :: fst (fst r'), snd (fst r'), snd r')
  end.

Fixpoint replay_renames (c : cred) (pairs : list (string * string)) (ret : Z) (v : V)
    : list event * Z * V :=
  match pairs with
  | [] => ([], ret, v)
  | (oldname, newname) :: rest =>
      let r :=
        renameat2_service c AT_FDCWD oldname AT_FDCWD newname RENAME_NOPROPAGATE v in
      let status := fst r in
      let r' := replay_renames c rest status (snd r) in
      (Renameat2 AT_FDCWD oldname AT_FDCWD newname RENAME_NOPROPAGATE status
         :: fst (fst r'),
       snd (fst r'), snd r')
  end.

End Super.

(** ** The rest of super.c *)

(** *** sdcardfs_show_options

    [struct seq_file] is taken for the text shown: seq_printf appends to
    it. *)
Definition seq_file := string.

(** The %u conversion of an unsigned int. *)
Definition fmt_u (n : Z) : string :=
  NilZero.string_of_uint (N.to_uint (Z.to_N (u32 n))).

(** [sdcardfs_show_options(m, root)]: the result is the returned [int] and
    the text of [*m] on return. *)
Definition sdcardfs_show_options (m : seq_file) (root : dentry) : Z * seq_file :=
  let sbi := SDCARDFS_SB (d_sb root) in
  let opts := options sbi in
  let m := if negb (fs_low_uid opts =? 0)
           then m +:+ ",uid=" +:+ fmt_u (fs_low_uid opts) else m in
  let m := if negb (fs_low_gid opts =? 0)
           then m +:+ ",gid=" +:+ fmt_u (fs_low_gid opts) else m in
  let m := if negb (sdfs_gid opts =? 0)
           then m +:+ ",sdfs_gid=" +:+ fmt_u (sdfs_gid opts) else m in
  let m := if negb (sdfs_mask opts =? 0)
           then m +:+ ",sdfs_mask" +:+ fmt_u (sdfs_mask opts) else m in
  let m := if multi_user opts
           then m +:+ ",multi_user" else m in
  let m := if negb (reserved_mb opts =? 0)
           then m +:+ ",reserved=" +:+ fmt_u (reserved_mb opts) +:+ "MB" else m in
  (0, m).

(** *** Mount teardown and the inode cache

    sdcardfs_put_super and sdcardfs_umount_begin use all of
    [struct sdcardfs_sb_info] and work on a superblock whose [s_fs_info] may
    be NULL; sdcardfs_init_inode_cache and sdcardfs_destroy_inode_cache set
    and read the pointer [sdcardfs_inode_cachep].  The records of this
    module have these parts, under the names of the source, around the
    kernel state of the callbacks above. *)
Module Teardown.

(** The superblock of a lower file system: its active count and whether its
    [s_op] has an [umount_begin]. *)
Record lower_super_block := {
  s_active : Z;
  s_op_umount_begin : bool
}.

(** Modelled from the spec: struct sdcardfs_sb_info of sdcardfs.h, the
    mount state: the backing superblock, the auxiliary bound path with the
    owned copy of its string, the options and the handle into the package
    registry.  [label_block] is where [options.label] points when it is
    set. *)
Record sdcardfs_sb_info := {
  options : sdcardfs_mount_options;
  label_block : addr;
  lower_sb : option addr;
  obbpath_s : option addr;
  obbpath : addr;
  pkgl_id : option addr
}.

(** [s_fs_info]: NULL, or the address of the mount state and the state
    there. *)
Record super_block := {
  s_fs_info : option (addr * sdcardfs_sb_info)
}.

Definition SDCARDFS_SB (sb : super_block) : option (addr * sdcardfs_sb_info) :=
  s_fs_info sb.

(** Calls out of super.c that the kernel log above has no entry for. *)
Inductive call :=
| LowerUmountBegin (lower : addr)
| PackagelistDestroy (id : addr) (t : type_t)
| KmemCacheCreate (name : string) (cache : option addr)
| KmemCacheDestroy (cache : addr).

Section Host.

Context `{Headers} {V : Type}.

(** The [umount_begin] of the lower file system. *)
Variable lower_umount_begin : addr -> V -> V.

Record host := {
  h_kernel : kernel (V := V);
  h_lower : gmap addr lower_super_block;   (* the lower superblocks *)
  h_cachep : option addr;                  (* sdcardfs_inode_cachep *)
  h_caches : gset addr;                    (* the kmem caches that exist *)
  h_calls : list call                      (* oldest first *)
}.

Definition set_kernel (h : host) (k : kernel) : host :=
  {| h_kernel := k; h_lower := h_lower h; h_cachep := h_cachep h;
     h_caches := h_caches h; h_calls := h_calls h |}.

Definition set_lower (h : host) (l : gmap addr lower_super_block) : host :=
  {| h_kernel := h_kernel h; h_lower := l; h_cachep := h_cachep h;
     h_caches := h_caches h; h_calls := h_calls h |}.

Definition set_cachep (h : host) (c : option addr) : host :=
  {| h_kernel := h_kernel h; h_lower := h_lower h; h_cachep := c;
     h_caches := h_caches h; h_calls := h_calls h |}.

Definition set_caches (h : host) (c : gset addr) : host :=
  {| h_kernel := h_kernel h; h_lower := h_lower h; h_cachep := h_cachep h;
     h_caches := c; h_calls := h_calls h |}.

Definition set_calls (h : host) (c : list call) : host :=
  {| h_kernel := h_kernel h; h_lower := h_lower h; h_cachep := h_cachep h;
     h_caches := h_caches h; h_calls := c |}.

(** Code that may dereference a NULL or dangling pointer: [None] is the
    fault. *)
Definition F (A : Type) : Type := host -> option (A * host).

Definition pure {A} (a : A) : F A := fun h => Some (a, h).

Definition bind {A B} (m : F A) (f : A -> F B) : F B :=
  fun h => match m h with
           | Some (a, h') => f a h'
           | None => None
           end.

Notation "x <- m ;; f" := (bind m (fun x => f))
  (at level 100, m at next level, right associativity).
Notation "m ;; f" := (bind m (fun _ => f))
  (at level 100, right associativity).

Definition fault {A} : F A := fun _ => None.

(** A call of the kernel services above. *)
Definition in_kernel {A} (m : M A) : F A :=
  fun h => let (a, k) := m (h_kernel h) in Some (a, set_kernel h k).

Definition called (c : call) : F unit :=
  fun h => Some (tt, set_calls h (h_calls h ++ [c])).

Definition path_put (p : addr) : F unit := in_kernel (log (PathPut p)).

(** [atomic_dec(&s->s_active)] *)
Definition atomic_dec_s_active (s : option addr) : F unit :=
  fun h =>
    match s with
    | None => None
    | Some l =>
        match h_lower h !! l with
        | None => None
        | Some ls =>
            Some (tt, set_lower h (<[l := {| s_active := s_active ls - 1;
                                            s_op_umount_begin := s_op_umount_begin ls |}]>
                                     (h_lower h)))
        end
    end.

(** Modelled from the spec: the accessors of sdcardfs.h for the backing
    superblock kept in the mount state.  They go through [s_fs_info]:
    there is no answer when it is NULL. *)
Definition sdcardfs_lower_super (sb : super_block) : F (option addr) :=
  match SDCARDFS_SB sb with
  | None => fault
  | Some (_, spd) => pure (lower_sb spd)
  end.

Definition sdcardfs_set_lower_super (sb : super_block) (val : option addr)
    : F super_block :=
  match SDCARDFS_SB sb with
  | None => fault
  | Some (a, spd) =>
      pure {| s_fs_info := Some (a,
                {| options := options spd; label_block := label_block spd;
                   lower_sb := val; obbpath_s := obbpath_s spd;
                   obbpath := obbpath spd; pkgl_id := pkgl_id spd |}) |}
  end.

Definition packagelist_destroy (id : addr) (t : type_t) : F unit :=
  called (PackagelistDestroy id t).

(** kmem_cache_create gives a cache that did not exist, or NULL;
    kmem_cache_destroy ends its existence. *)
Definition kmem_cache_create (name : string) : F (option addr) :=
  ok <- in_kernel alloc_attempt ;;
  if ok : bool then
    fun h =>
      let c := fresh (h_caches h) in
      Some (Some c,
            set_calls (set_caches h ({[ c ]} ∪ h_caches h))
                      (h_calls h ++ [KmemCacheCreate name (Some c)]))
  else
    called (KmemCacheCreate name None) ;; pure None.

Definition kmem_cache_destroy (c : addr) : F unit :=
  fun h => called (KmemCacheDestroy c) (set_caches h (h_caches h ∖ {[ c ]})).

(** [sdcardfs_put_super(sb)]: the result is [*sb] as the call leaves it. *)
Definition sdcardfs_put_super (sb : super_block) : F super_block :=
  match SDCARDFS_SB sb with
  | None => pure sb
  | Some (spd_addr, spd) =>
      (match obbpath_s spd with
       | Some s => in_kernel (kfree s) ;; path_put (obbpath spd)
       | None => pure tt
       end) ;;
      (match label (options spd) with
       | Some _ => in_kernel (kfree (label_block spd))
       | None => pure tt
       end) ;;
      (* decrement lower super references *)
      s <- sdcardfs_lower_super sb ;;
      sb <- sdcardfs_set_lower_super sb None ;;
      atomic_dec_s_active s ;;
      in_kernel (kfree spd_addr) ;;
      pure {| s_fs_info := None |}
  end.

Definition sdcardfs_umount_begin (sb : super_block) : F unit :=
  lower_sb <- sdcardfs_lower_super sb ;;
  (match lower_sb with
   | None => pure tt
   | Some l =>
       fun h =>
         match h_lower h !! l with
         | None => None
         | Some ls =>
             if s_op_umount_begin ls
             then called (LowerUmountBegin l)
                    (set_kernel h (set_vfs (h_kernel h)
                                     (lower_umount_begin l (k_vfs (h_kernel h)))))
             else Some (tt, h)
         end
   end) ;;
  match SDCARDFS_SB sb with
  | None => pure tt
  | Some (_, spd) =>
      let type := type (options spd) in
      match pkgl_id spd with
      | Some id => packagelist_destroy id type
      | None => pure tt
      end
  end.

Definition sdcardfs_init_inode_cache : F Z :=
  let err := 0 in
  c <- kmem_cache_create "sdcardfs_inode_cache" ;;
  (fun h => Some (tt, set_cachep h c)) ;;
  match c with
  | None => pure (- ENOMEM)
  | Some _ => pure err
  end.

(** sdcardfs inode cache destructor *)
Definition sdcardfs_destroy_inode_cache : F unit :=
  fun h =>
    match h_cachep h with
    | Some c => kmem_cache_destroy c h
    | None => Some (tt, h)
    end.

End Host.

End Teardown.

(** ** The vocabulary of the statements *)

Section Vocabulary.

Context `{Headers} {V : Type}.

(** The value [sdcardfs_statfs] computes into its [u32 min_blocks]. *)
Definition min_blocks_of (R bsize : Z) : Z :=
  u32 (div_uint_long target (u32 (u32 (R * 1024) * 1024)) bsize).

(** Bit [i] is one of read-only, mandatory-lock, silent. *)
Definition remount_allowed_bit (i : Z) : bool :=
  Z.testbit MS_RDONLY i || Z.testbit MS_MANDLOCK i || Z.testbit MS_SILENT i.

Definition has_bit_outside (flags : Z) : Prop :=
  exists i, 0 <= i /\ Z.testbit flags i = true /\ remount_allowed_bit i = false.

Definition all_bits_within (flags : Z) : Prop :=
  forall i, 0 <= i -> Z.testbit flags i = true -> remount_allowed_bit i = true.

(** The paths of the active projections, as the code formats them. *)
Definition projected (parent : inode) (rel : string) : list string :=
  map (fun p => snprintf PATH_MAX
                  (spec_path (fmt_s (label (options (SDCARDFS_SB (i_sb parent))))) p rel))
      (List.filter (spec_active (type (options (SDCARDFS_SB (i_sb parent))))) projections).

Definition projected_pairs (parent : inode) (oldname newname : string)
    : list (string * string) :=
  map (fun p =>
         (snprintf PATH_MAX
            (spec_path (fmt_s (label (options (SDCARDFS_SB (i_sb parent))))) p oldname),
          snprintf PATH_MAX
            (spec_path (fmt_s (label (options (SDCARDFS_SB (i_sb parent))))) p newname)))
      (List.filter (spec_active (type (options (SDCARDFS_SB (i_sb parent))))) projections).

(** Every identity acquired during a call is reverted, every block
    allocated is freed, each once, and the credentials and the heap are as
    before the call. *)
Definition releases_all (k k' : kernel (V := V)) : Prop :=
  let evs := emitted k k' in
  reverted evs = acquired evs /\ (length (acquired evs) <= 1)%nat /\
  freed evs = allocated evs /\ NoDup (allocated evs) /\
  k_cred k' = k_cred k /\ k_cred_live k' = k_cred_live k /\
  k_heap k' = k_heap k.

(** The runtime directory of a view: the projection its own mount stands
    for. *)
Definition own_prefix (t : type_t) : option string :=
  match t with
  | TYPE_DEFAULT => Some "/mnt/runtime/default/"
  | TYPE_READ => Some "/mnt/runtime/read/"
  | TYPE_WRITE => Some "/mnt/runtime/write/"
  | TYPE_NONE | TYPE_FULL => None
  end.

(** A delete or rename that is relative to the working directory and does
    not propagate again; any other event. *)
Definition quiet (e : event) : Prop :=
  match e with
  | Unlinkat dfd _ propagate _ => dfd = AT_FDCWD /\ propagate = false
  | Renameat2 olddfd _ newdfd _ flags _ =>
      olddfd = AT_FDCWD /\ newdfd = AT_FDCWD /\ flags = RENAME_NOPROPAGATE
  | _ => True
  end.

(** The deletes of a log with their statuses, and the renames with
    theirs. *)
Definition unlink_attempts (evs : list event) : list (string * Z) :=
  omap (fun e => match e with
                 | Unlinkat _ pathname _ status => Some (pathname, status)
                 | _ => None
                 end) evs.

Definition rename_attempts (evs : list event) : list (string * string * Z) :=
  omap (fun e => match e with
                 | Renameat2 _ oldname _ newname _ status =>
                     Some (oldname, newname, status)
                 | _ => None
                 end) evs.

(** The options sdcardfs_show_options looks at all have their default. *)
Definition default_shown (o : sdcardfs_mount_options) : Prop :=
  fs_low_uid o = 0 /\ fs_low_gid o = 0 /\ sdfs_gid o = 0 /\ sdfs_mask o = 0 /\
  multi_user o = false /\ reserved_mb o = 0.

(** The paths put in a log. *)
Definition path_puts (evs : list event) : list addr :=
  omap (fun e => match e with PathPut p => Some p | _ => None end) evs.

(** The blocks a mount state at [a] owns: the copy of the obb path, the
    label, the state itself. *)
Definition owned_blocks (a : addr) (spd : Teardown.sdcardfs_sb_info) : list addr :=
  match Teardown.obbpath_s spd with Some s => [s] | None => [] end ++
  match label (Teardown.options spd) with
  | Some _ => [Teardown.label_block spd]
  | None => []
  end ++ [a].

(** The first [n] allocations of a plan all succeed. *)
Definition plan_ok (n : nat) (plan : list bool) : bool :=
  forallb (fun ok => ok) (firstn n plan).

End Vocabulary.

(** ** A small kernel to run the model on

    The lower file system has no state of its own here: the status of an
    unlink or a rename depends on the path only and statfs gives a fixed
    answer. *)

Definition sample_kernel (plan : list bool) : kernel (V := unit) := {|
  k_vfs := tt;
  k_cred := {| fsuid := 1000; fsgid := 1000 |};
  k_cred_live := 0;
  k_addr_limit := USER_DS;
  k_heap := ∅;
  k_alloc_plan := plan;
  k_icount := {[ 5%positive := 2 ]};
  k_inode_cachep :=
    {| kc_free := []; kc_in_use := 0;
       kc_fresh := {| lower_inode := Some 7%positive;
                      vfs_inode := {| i_sb := {| s_fs_info := {| options :=
                        {| fs_low_uid := 0; fs_low_gid := 0; sdfs_gid := 0;
                           sdfs_mask := 0; multi_user := false; label := None;
                           type := TYPE_NONE; reserved_mb := 0 |} |} |};
                        i_version := 0 |} |} |};
  k_log := []
|}.

Definition sample_unlinkat (status : string -> Z)
    : cred -> Z -> string -> bool -> unit -> Z * unit :=
  fun _ _ pathname _ v => (status pathname, v).

Definition sample_renameat2 (status : string -> Z)
    : cred -> Z -> string -> Z -> string -> Z -> unit -> Z * unit :=
  fun _ _ oldname _ _ _ v => (status oldname, v).

(** Only what lies under /storage/ exists: 0 there, -ENOENT elsewhere. *)
Definition storage_only (pathname : string) : Z :=
  if String.prefix "/storage/" pathname then 0 else -2.

Definition sample_statfs (err : Z) (b : kstatfs)
    : addr -> kstatfs -> unit -> (Z * kstatfs) * unit :=
  fun _ _ v => ((err, b), v).

Definition sample_sb (t : type_t) (l : option string) (mb : Z) : super_block :=
  {| s_fs_info := {| options :=
       {| fs_low_uid := 0; fs_low_gid := 0; sdfs_gid := 0; sdfs_mask := 0;
          multi_user := false; label := l; type := t; reserved_mb := mb |} |} |}.

Definition sample_dentry (mb : Z) : dentry :=
  {| d_sb := sample_sb TYPE_DEFAULT (Some "emulated") mb; d_lower_path := 1%positive |}.

Definition sample_buf (bsize blocks bfree bavail : Z) : kstatfs :=
  {| f_type := 0xEF53; f_bsize := bsize; f_blocks := blocks; f_bfree := bfree;
     f_bavail := bavail; f_files := 0; f_ffree := 0; f_namelen := 255;
     f_frsize := bsize; f_flags := 0 |}.

Definition sample_parent (t : type_t) (l : option string) : inode :=
  {| i_sb := sample_sb t l 0; i_version := 1 |}.

(** A stacked inode bound to the backing inode 5. *)
Definition sample_stacked : sdcardfs_inode_info :=
  {| lower_inode := Some 5%positive; vfs_inode := sample_parent TYPE_DEFAULT None |}.

Fixpoint repeat_char (c : Ascii.ascii) (n : nat) : string :=
  match n with
  | O => EmptyString
  | S n' => String c (repeat_char c n')
  end.

(** A path of 4090 characters. *)
Definition long_name : string :=
  "/" +:+ repeat_char "a"%char (Z.to_nat 4089).

(** A mount state at address 20 with a label at 21 and an obb path copy at
    22, on the lower superblock 9, which has an umount_begin. *)
Definition sample_spd : Teardown.sdcardfs_sb_info :=
  {| Teardown.options :=
       {| fs_low_uid := 1023; fs_low_gid := 1023; sdfs_gid := 0; sdfs_mask := 6;
          multi_user := true; label := Some "emulated"; type := TYPE_WRITE;
          reserved_mb := 50 |};
     Teardown.label_block := 21%positive;
     Teardown.lower_sb := Some 9%positive;
     Teardown.obbpath_s := Some 22%positive;
     Teardown.obbpath := 3%positive;
     Teardown.pkgl_id := Some 30%positive |}.

Definition sample_mounted : Teardown.super_block :=
  {| Teardown.s_fs_info := Some (20%positive, sample_spd) |}.

Definition sample_host : Teardown.host (V := unit) :=
  {| Teardown.h_kernel :=
       set_heap (sample_kernel [])
         (list_to_set [20%positive; 21%positive; 22%positive; 40%positive]);
     Teardown.h_lower :=
       {[ 9%positive := {| Teardown.s_active := 2;
                           Teardown.s_op_umount_begin := true |} ]};
     Teardown.h_cachep := None;
     Teardown.h_caches := ∅;
     Teardown.h_calls := [] |}.

(** ** Properties *)

Section Properties.

Context `{Headers} {V : Type}.

(** *** The capacity reservation filter *)

Section Statfs.

Variable statfs_service : addr -> kstatfs -> V -> (Z * kstatfs) * V.

(** What the call returns, for each answer of the lower file system. *)
Lemma statfs_run (dent : dentry) (buf : kstatfs) (k : kernel) err b v' :
  statfs_service (d_lower_path dent) buf (k_vfs k) = (err, b, v') ->
  fst (sdcardfs_statfs statfs_service dent buf k) =
    let R := reserved_mb (options (SDCARDFS_SB (d_sb dent))) in
    if negb (R =? 0) then
      if f_bsize b =? 0 then (- EINVAL, b)
      else
        let m := min_blocks_of R (f_bsize b) in
        let a := if f_bavail b >? m then u64 (f_bavail b - m) else 0 in
        (err, {| f_type := SDCARDFS_SUPER_MAGIC; f_bsize := f_bsize b;
                 f_blocks := u64 (f_blocks b - m); f_bfree := a; f_bavail := a;
                 f_files := f_files b; f_ffree := f_ffree b;
                 f_namelen := f_namelen b; f_frsize := f_frsize b;
                 f_flags := f_flags b |})
    else (err, set_f_type b SDCARDFS_SUPER_MAGIC).
Proof.
  intros Hsvc.
  unfold sdcardfs_statfs, bind, sdcardfs_get_lower_path, vfs_statfs,
    sdcardfs_put_lower_path, printk, log, pure. cbn.
  rewrite Hsvc. cbn.
  destruct (reserved_mb _ =? 0); cbn; [reflexivity|].
  destruct (f_bsize b =? 0); cbn; [reflexivity|].
  fold (min_blocks_of (reserved_mb (options (SDCARDFS_SB (d_sb dent)))) (f_bsize b)).
  destruct (f_bavail b >? _); reflexivity.
Qed.

(** Without overflow of the 32-bit product, [min_blocks] is the reservation
    converted to blocks. *)
Lemma min_blocks_exact R B :
  0 < R -> R * 2 ^ 20 < 2 ^ 32 -> 0 < B -> is_long target B ->
  min_blocks_of R B = R * 2 ^ 20 / B.
Proof.
  intros HR Hfit HB Hlong. unfold min_blocks_of, u32, wrap.
  rewrite (Z.mod_small (R * 1024)) by lia.
  replace (R * 1024 * 1024) with (R * 2 ^ 20) by lia.
  rewrite (Z.mod_small (R * 2 ^ 20)) by lia.
  assert (Hq : div_uint_long target (R * 2 ^ 20) B = R * 2 ^ 20 / B).
  { unfold div_uint_long, is_long, wrap in *.
    destruct target; cbn in Hlong.
    - rewrite (Z.mod_small B) by lia. apply Z.quot_div_nonneg; lia.
    - apply Z.quot_div_nonneg; lia. }
  rewrite Hq. apply Z.mod_small. split.
  - apply Z.div_pos; lia.
  - apply Z.le_lt_trans with (R * 2 ^ 20); [|lia].
    apply Z.div_le_upper_bound; nia.
Qed.

(** C3, as amended.  For a mount with reservation [R] megabytes, [R > 0] and
    [R] MiB below 2^32 bytes, and a backing answer with block size [B > 0]:
    sdcardfs_statfs returns the status of the backing query and statistics in
    which the total block count is the backing total minus [R * 1MiB / B]
    modulo 2^64, the available block count is
    [max 0 (available - R * 1MiB / B)], and the free block count equals that
    clamped available count. *)
Theorem statfs_reservation (dent : dentry) (buf : kstatfs) (k : kernel) err b v' :
  statfs_service (d_lower_path dent) buf (k_vfs k) = (err, b, v') ->
  let R := reserved_mb (options (SDCARDFS_SB (d_sb dent))) in
  let B := f_bsize b in
  0 < R -> R * 2 ^ 20 < 2 ^ 32 -> 0 < B -> is_long target B -> kstatfs_wf b ->
  let res := fst (sdcardfs_statfs statfs_service dent buf k) in
  fst res = err /\
  f_blocks (snd res) = (f_blocks b - R * 2 ^ 20 / B) mod 2 ^ 64 /\
  f_bavail (snd res) = Z.max 0 (f_bavail b - R * 2 ^ 20 / B) /\
  f_bfree (snd res) = f_bavail (snd res).
Proof.
  intros Hsvc R B HR Hfit HB Hlong (Hblocks & Hbfree & Hbavail) res.
  subst res. rewrite (statfs_run _ _ _ _ _ _ Hsvc). fold R. fold B.
  assert (ER : (R =? 0) = false) by (apply Z.eqb_neq; lia).
  assert (EB : (B =? 0) = false) by (apply Z.eqb_neq; lia).
  cbn zeta. rewrite ER, EB.
  rewrite (min_blocks_exact R B HR Hfit HB Hlong).
  assert (Hq : 0 <= R * 2 ^ 20 / B) by (apply Z.div_pos; lia).
  set (q := R * 2 ^ 20 / B) in *.
  destruct (Z.gtb_spec (f_bavail b) q) as [Hgt|Hle];
    cbn [negb fst snd f_blocks f_bavail f_bfree]; repeat split.
  - unfold u64, wrap. rewrite Z.mod_small by lia. lia.
  - lia.
Qed.

(** C9.  For a mount with [reserved_mb > 0], when the backing file system
    reports a block size of 0, sdcardfs_statfs fails with -EINVAL. *)
Theorem statfs_zero_block_size (dent : dentry) (buf : kstatfs) (k : kernel) err b v' :
  statfs_service (d_lower_path dent) buf (k_vfs k) = (err, b, v') ->
  0 < reserved_mb (options (SDCARDFS_SB (d_sb dent))) ->
  f_bsize b = 0 ->
  fst (fst (sdcardfs_statfs statfs_service dent buf k)) = - EINVAL.
Proof.
  intros Hsvc HR HB. rewrite (statfs_run _ _ _ _ _ _ Hsvc). cbn zeta.
  rewrite (proj2 (Z.eqb_neq _ 0)) by lia.
  rewrite HB. reflexivity.
Qed.

(** C10.  sdcardfs_statfs stores its own magic in [f_type] on every return
    path but the zero-block-size one.  With reservation [R] and the backing
    query answering [(err, b)]: if [R <> 0] and [b] has block size 0 the call
    returns -EINVAL and the buffer is [b] itself, [f_type] as the backing
    file system left it; in every other case the call returns [err], failed
    query or not, and the buffer carries the magic; if moreover [R <> 0] the
    reservation has been subtracted from [b], and if [R = 0] the buffer is
    [b] with nothing but the tag changed. *)
Theorem statfs_type_tag (dent : dentry) (buf : kstatfs) (k : kernel) err b v' :
  statfs_service (d_lower_path dent) buf (k_vfs k) = (err, b, v') ->
  let R := reserved_mb (options (SDCARDFS_SB (d_sb dent))) in
  let res := fst (sdcardfs_statfs statfs_service dent buf k) in
  (R <> 0 /\ f_bsize b = 0 -> res = (- EINVAL, b)) /\
  (R = 0 \/ f_bsize b <> 0 ->
     fst res = err /\ f_type (snd res) = SDCARDFS_SUPER_MAGIC) /\
  (R <> 0 -> f_bsize b <> 0 ->
     let m := min_blocks_of R (f_bsize b) in
     f_blocks (snd res) = u64 (f_blocks b - m) /\
     f_bavail (snd res) = (if f_bavail b >? m then u64 (f_bavail b - m) else 0) /\
     f_bfree (snd res) = f_bavail (snd res) /\
     f_bsize (snd res) = f_bsize b) /\
  (R = 0 -> snd res = set_f_type b SDCARDFS_SUPER_MAGIC).
Proof.
  intros Hsvc R res. subst res. rewrite (statfs_run _ _ _ _ _ _ Hsvc). fold R.
  cbn zeta.
  destruct (R =? 0) eqn:ER; [apply Z.eqb_eq in ER | apply Z.eqb_neq in ER];
    (destruct (f_bsize b =? 0) eqn:EB;
       [apply Z.eqb_eq in EB | apply Z.eqb_neq in EB]); cbn [negb fst snd].
  all: repeat split; try tauto; try (intros [? ?]; tauto).
  all: intros; cbn; try reflexivity; tauto.
Qed.

(** *** Further properties of the reservation filter *)

(** The 32-bit product wraps: [min_blocks] is the reservation modulo
    4096 MB, converted to blocks. *)
Lemma min_blocks_wrapped R B :
  0 < B -> is_long target B ->
  min_blocks_of R B = (R mod 4096) * 2 ^ 20 / B.
Proof.
  intros HB Hlong. unfold min_blocks_of, u32, wrap.
  rewrite Z.mul_mod_idemp_l by lia.
  replace (R * 1024 * 1024) with (R * 2 ^ 20) by lia.
  change (2 ^ 32) with (4096 * 2 ^ 20).
  rewrite Z.mul_mod_distr_r by lia.
  pose proof (Z.mod_pos_bound R 4096 ltac:(lia)) as Hr.
  set (x := R mod 4096) in *.
  assert (Hq : div_uint_long target (x * 2 ^ 20) B = x * 2 ^ 20 / B).
  { unfold div_uint_long, is_long, wrap in *.
    destruct target; cbn in Hlong.
    - rewrite (Z.mod_small B) by lia. apply Z.quot_div_nonneg; lia.
    - apply Z.quot_div_nonneg; lia. }
  rewrite Hq. apply Z.mod_small. split.
  - apply Z.div_pos; lia.
  - apply Z.le_lt_trans with (x * 2 ^ 20); [|lia].
    apply Z.div_le_upper_bound; nia.
Qed.


(** X10.  sdcardfs_statfs takes the reference to the lower path and drops
    it again exactly once on every return path, the -EINVAL one included,
    where the only other thing logged is the diagnostic; it leaves the
    lower file system as vfs_statfs left it and nothing else of the kernel
    changed. *)
Theorem statfs_lower_path_balanced (dent : dentry) (buf : kstatfs) (k : kernel) :
  let r := sdcardfs_statfs statfs_service dent buf k in
  let k' := snd r in
  let p := d_lower_path dent in
  (emitted k k' = [PathGet p; PathPut p] \/
   emitted k k' = [PathGet p; PathPut p; Printk "Returned block size is zero.\n" []] /\
   fst (fst r) = - EINVAL) /\
  k_vfs k' = snd (statfs_service p buf (k_vfs k)) /\
  k_cred k' = k_cred k /\ k_cred_live k' = k_cred_live k /\
  k_addr_limit k' = k_addr_limit k /\ k_heap k' = k_heap k /\
  k_alloc_plan k' = k_alloc_plan k /\ k_icount k' = k_icount k /\
  k_inode_cachep k' = k_inode_cachep k.
Proof.
  destruct k as [v c live seg heap plan ic cache lg].
  unfold sdcardfs_statfs, bind, sdcardfs_get_lower_path, vfs_statfs,
    sdcardfs_put_lower_path, printk, log, pure, emitted. cbn.
  destruct (reserved_mb _ =? 0); cbn;
    [|destruct (f_bsize _ =? 0); cbn];
    rewrite <- ?app_assoc, ?drop_app_length; repeat split; auto.
Qed.


(** X12.  The reservation is taken modulo 4096 MB: for any nonzero
    [reserved_mb] = R and block size B > 0, the blocks subtracted are
    [(R mod 4096) * 1MiB / B], so that a reservation of 4096 MB, or any
    multiple of it, reserves nothing. *)
Theorem statfs_reservation_wraps (dent : dentry) (buf : kstatfs) (k : kernel)
    err b v' :
  statfs_service (d_lower_path dent) buf (k_vfs k) = (err, b, v') ->
  let R := reserved_mb (options (SDCARDFS_SB (d_sb dent))) in
  let B := f_bsize b in
  R <> 0 -> 0 < B -> is_long target B -> kstatfs_wf b ->
  let res := snd (fst (sdcardfs_statfs statfs_service dent buf k)) in
  let reserved := (R mod 4096) * 2 ^ 20 / B in
  f_blocks res = (f_blocks b - reserved) mod 2 ^ 64 /\
  f_bavail res = Z.max 0 (f_bavail b - reserved) /\
  f_bfree res = f_bavail res /\
  (R mod 4096 = 0 ->
     f_blocks res = f_blocks b /\ f_bavail res = f_bavail b).
Proof.
  intros Hsvc R B HR HB Hlong (Hblocks & Hbfree & Hbavail) res reserved.
  subst res. rewrite (statfs_run _ _ _ _ _ _ Hsvc). fold R. fold B.
  assert (ER : (R =? 0) = false) by (apply Z.eqb_neq; lia).
  assert (EB : (B =? 0) = false) by (apply Z.eqb_neq; lia).
  cbn zeta. rewrite ER, EB.
  rewrite (min_blocks_wrapped R B HB Hlong). fold reserved.
  assert (Hq : 0 <= reserved).
  { pose proof (Z.mod_pos_bound R 4096 ltac:(lia)).
    apply Z.div_pos; lia. }
  assert (Hz : R mod 4096 = 0 -> reserved = 0).
  { intros Hmod. unfold reserved. rewrite Hmod. reflexivity. }
  clearbody reserved.
  destruct (Z.gtb_spec (f_bavail b) reserved) as [Hgt|Hle];
    cbn [negb fst snd f_blocks f_bavail f_bfree]; unfold u64, wrap.
  - rewrite (Z.mod_small (f_bavail b - reserved)) by lia.
    split; [reflexivity | split; [lia | split; [reflexivity|]]].
    intros Hmod. rewrite (Hz Hmod), !Z.sub_0_r. split; [|reflexivity].
    apply Z.mod_small. lia.
  - split; [reflexivity | split; [lia | split; [reflexivity|]]].
    intros Hmod. rewrite (Hz Hmod) in *. rewrite Z.sub_0_r. split; [|lia].
    apply Z.mod_small. lia.
Qed.

End Statfs.

(** *** Remount *)

Lemma remount_mask_bit flags i :
  0 <= i ->
  Z.testbit (Z.land flags (Z.lnot (Z.lor (Z.lor MS_RDONLY MS_MANDLOCK) MS_SILENT))) i
  = Z.testbit flags i && negb (remount_allowed_bit i).
Proof.
  intros Hi. unfold remount_allowed_bit.
  rewrite Z.land_spec, Z.lnot_spec, !Z.lor_spec by assumption. reflexivity.
Qed.

Lemma remount_mask_zero flags :
  Z.land flags (Z.lnot (Z.lor (Z.lor MS_RDONLY MS_MANDLOCK) MS_SILENT)) = 0
  <-> all_bits_within flags.
Proof.
  split.
  - intros Hz i Hi Hbit.
    pose proof (remount_mask_bit flags i Hi) as Hm.
    rewrite Hz, Z.bits_0, Hbit in Hm.
    destruct (remount_allowed_bit i); [reflexivity | discriminate].
  - intros Hin. apply Z.bits_inj'. intros i Hi.
    rewrite remount_mask_bit, Z.bits_0 by assumption.
    destruct (Z.testbit flags i) eqn:Hbit; [|reflexivity].
    rewrite (Hin i Hi Hbit). reflexivity.
Qed.

(** C8.  A remount whose flags have a bit outside read-only, mandatory-lock
    and silent returns -EINVAL; a remount whose flags lie within these three
    returns 0; and in both cases the superblock, and with it the mount
    options, is as it was. *)
Theorem remount_whitelist (sb : super_block) (flags : Z) (opts : string)
    (k : kernel (V := V)) :
  let res := fst (sdcardfs_remount_fs sb flags opts k) in
  (has_bit_outside flags -> res = (- EINVAL, sb, flags)) /\
  (all_bits_within flags -> res = (0, sb, flags)) /\
  options (SDCARDFS_SB (snd (fst res))) = options (SDCARDFS_SB sb).
Proof.
  unfold sdcardfs_remount_fs, bind, printk, log, pure. cbn zeta.
  destruct (Z.eqb_spec
    (Z.land flags (Z.lnot (Z.lor (Z.lor MS_RDONLY MS_MANDLOCK) MS_SILENT))) 0)
    as [Hz|Hnz]; cbn [negb fst snd].
  - repeat split. intros (i & Hi & Hbit & Hout).
    apply remount_mask_zero in Hz. rewrite (Hz i Hi Hbit) in Hout. discriminate.
  - repeat split. intros Hin. apply remount_mask_zero in Hin. contradiction.
Qed.

(** *** Stacked inodes *)

(** C7.  Evicting a stacked inode bound to the backing inode [l] clears the
    binding and calls iput once, on [l], the reference read before the
    binding was cleared: [l] loses one reference and no other inode is
    touched.  Evicting the object again would release nothing.  Over a whole
    life (allocate, bind to [l], evict, return to the cache), [l] is released
    exactly once when the allocation succeeds, and never when it fails. *)
Theorem evict_releases_binding (inode : sdcardfs_inode_info) (l : addr)
    (sb : super_block) (k : kernel (V := V)) :
  sdcardfs_lower_inode inode = Some l ->
  let inode' := fst (sdcardfs_evict_inode inode k) in
  let k' := snd (sdcardfs_evict_inode inode k) in
  let life := inode_lifecycle sb l k in
  sdcardfs_lower_inode inode' = None /\
  released (emitted k k') = [Some l] /\
  k_icount k' = alter Z.pred l (k_icount k) /\
  released (emitted k' (snd (sdcardfs_evict_inode inode' k'))) = [None] /\
  k_icount (snd (sdcardfs_evict_inode inode' k')) = k_icount k' /\
  released (emitted k (snd life)) =
    match fst life with Some _ => [Some l] | None => [] end /\
  k_icount (snd life) =
    match fst life with Some _ => alter Z.pred l (k_icount k) | None => k_icount k end /\
  kc_in_use (k_inode_cachep (snd life)) = kc_in_use (k_inode_cachep k).
Proof.
  intros Hbound. destruct k as [v c live seg heap plan ic cache lg].
  unfold inode_lifecycle, sdcardfs_alloc_inode, sdcardfs_destroy_inode,
    sdcardfs_evict_inode, kmem_cache_alloc, kmem_cache_free,
    truncate_inode_pages, clear_inode, iput, sdcardfs_set_lower_inode,
    sdcardfs_lower_inode, alloc_attempt, log, bind, pure, emitted in *.
  rewrite Hbound.
  cbn [fst snd k_vfs k_cred k_cred_live k_addr_limit k_heap k_alloc_plan
       k_icount k_inode_cachep k_log set_vfs set_cred set_addr_limit set_heap
       set_alloc_plan set_icount set_inode_cachep set_log lower_inode].
  rewrite <- !app_assoc, !drop_app_length.
  repeat split.
  all: destruct plan as [|[] plan]; destruct cache as [[|o free] fresh_obj n];
    cbn [fst snd k_vfs k_cred k_cred_live k_addr_limit k_heap k_alloc_plan
         k_icount k_inode_cachep k_log set_vfs set_cred set_addr_limit set_heap
         set_alloc_plan set_icount set_inode_cachep set_log lower_inode
         kc_free kc_fresh kc_in_use];
    rewrite <- ?app_assoc, ?drop_app_length; try reflexivity; try lia.
  all: rewrite List.length_app, drop_app_add; reflexivity.
Qed.

(** *** Further properties of remount and of the inode cache *)

(** X13.  sdcardfs_remount_fs changes nothing but the log: it prints its
    diagnostic, once, with the offending flags, exactly when it returns
    -EINVAL for a flag it does not accept, and prints nothing when it
    returns 0; [*flags] is as it was. *)
Theorem remount_diagnostic (sb : super_block) (flags : Z) (opts : string)
    (k : kernel (V := V)) :
  let r := sdcardfs_remount_fs sb flags opts k in
  let k' := snd r in
  (emitted k k' = [] /\ fst (fst (fst r)) = 0 /\ all_bits_within flags \/
   emitted k k' = [Printk "sdcardfs: remount flags 0x%x unsupported\n" [flags]] /\
   fst (fst (fst r)) = - EINVAL /\ ~ all_bits_within flags) /\
  snd (fst r) = flags /\
  k_vfs k' = k_vfs k /\ k_cred k' = k_cred k /\ k_cred_live k' = k_cred_live k /\
  k_addr_limit k' = k_addr_limit k /\ k_heap k' = k_heap k /\
  k_alloc_plan k' = k_alloc_plan k /\ k_icount k' = k_icount k /\
  k_inode_cachep k' = k_inode_cachep k.
Proof.
  destruct k as [v c live seg heap plan ic cache lg].
  unfold sdcardfs_remount_fs, bind, printk, log, pure, emitted. cbn zeta.
  destruct (Z.eqb_spec
    (Z.land flags (Z.lnot (Z.lor (Z.lor MS_RDONLY MS_MANDLOCK) MS_SILENT))) 0)
    as [Hz|Hnz]; cbn; rewrite ?drop_app_length, ?drop_all.
  - repeat split. left. repeat split. apply remount_mask_zero, Hz.
  - repeat split. right. repeat split. intros Hin. apply Hnz, remount_mask_zero, Hin.
Qed.

Lemma remount_mask_lor flags c :
  Z.land c (Z.lnot (Z.lor (Z.lor MS_RDONLY MS_MANDLOCK) MS_SILENT)) = 0 ->
  Z.land (Z.lor flags c) (Z.lnot (Z.lor (Z.lor MS_RDONLY MS_MANDLOCK) MS_SILENT))
  = Z.land flags (Z.lnot (Z.lor (Z.lor MS_RDONLY MS_MANDLOCK) MS_SILENT)).
Proof.
  intros Hc. rewrite Z.land_lor_distr_l, Hc. apply Z.lor_0_r.
Qed.

Lemma remount_mask_clear flags c :
  Z.land c (Z.lnot (Z.lor (Z.lor MS_RDONLY MS_MANDLOCK) MS_SILENT)) = 0 ->
  Z.land (Z.land flags (Z.lnot c))
         (Z.lnot (Z.lor (Z.lor MS_RDONLY MS_MANDLOCK) MS_SILENT))
  = Z.land flags (Z.lnot (Z.lor (Z.lor MS_RDONLY MS_MANDLOCK) MS_SILENT)).
Proof.
  intros Hc. apply Z.bits_inj'. intros i Hi.
  pose proof (f_equal (fun x => Z.testbit x i) Hc) as Hbit. cbn beta in Hbit.
  rewrite Z.bits_0, Z.land_spec in Hbit.
  rewrite !Z.land_spec, (Z.lnot_spec c) by assumption.
  destruct (Z.testbit flags i), (Z.testbit c i),
    (Z.testbit (Z.lnot _) i); cbn in *; congruence.
Qed.

Lemma remount_whitelisted_mask c :
  c = MS_RDONLY \/ c = MS_MANDLOCK \/ c = MS_SILENT ->
  Z.land c (Z.lnot (Z.lor (Z.lor MS_RDONLY MS_MANDLOCK) MS_SILENT)) = 0.
Proof.
  intros Hc. apply Z.bits_inj'. intros i Hi.
  rewrite Z.land_spec, Z.lnot_spec, !Z.lor_spec, Z.bits_0 by assumption.
  destruct Hc as [-> | [-> | ->]];
    destruct (Z.testbit MS_RDONLY i), (Z.testbit MS_MANDLOCK i),
      (Z.testbit MS_SILENT i); reflexivity.
Qed.

(** X14.  Setting or clearing MS_RDONLY, MS_MANDLOCK or MS_SILENT in the
    flags of a remount never changes what sdcardfs_remount_fs returns. *)
Theorem remount_ignores_whitelisted (sb : super_block) (flags c : Z) (opts : string)
    (k : kernel (V := V)) :
  c = MS_RDONLY \/ c = MS_MANDLOCK \/ c = MS_SILENT ->
  let ret f := fst (fst (fst (sdcardfs_remount_fs sb f opts k))) in
  ret (Z.lor flags c) = ret flags /\ ret (Z.land flags (Z.lnot c)) = ret flags.
Proof.
  intros Hc. apply remount_whitelisted_mask in Hc.
  unfold sdcardfs_remount_fs, bind, printk, log, pure. cbn zeta.
  rewrite (remount_mask_lor flags c Hc), (remount_mask_clear flags c Hc).
  destruct (Z.land flags _ =? 0); split; reflexivity.
Qed.

(** X15.  An inode that sdcardfs_alloc_inode returns is bound to no backing
    inode and has i_version 1, whatever the slab object held before; a
    failed allocation returns NULL and leaves the cache as it was.
    Neither sdcardfs_alloc_inode nor sdcardfs_destroy_inode releases or
    takes a reference to a lower inode. *)
Theorem alloc_inode_unbound (sb : super_block) (inode : sdcardfs_inode_info)
    (k : kernel (V := V)) :
  let ra := sdcardfs_alloc_inode sb k in
  let rd := sdcardfs_destroy_inode inode k in
  match fst ra with
  | Some i =>
      sdcardfs_lower_inode i = None /\ i_version (vfs_inode i) = 1 /\
      kc_in_use (k_inode_cachep (snd ra)) = kc_in_use (k_inode_cachep k) + 1
  | None => k_inode_cachep (snd ra) = k_inode_cachep k
  end /\
  released (emitted k (snd ra)) = [] /\ k_icount (snd ra) = k_icount k /\
  released (emitted k (snd rd)) = [] /\ k_icount (snd rd) = k_icount k /\
  kc_free (k_inode_cachep (snd rd)) = inode :: kc_free (k_inode_cachep k).
Proof.
  destruct k as [v c live seg heap plan ic cache lg].
  unfold sdcardfs_alloc_inode, sdcardfs_destroy_inode, kmem_cache_alloc,
    kmem_cache_free, sdcardfs_lower_inode, alloc_attempt, log, bind, pure, emitted.
  cbn [fst snd k_vfs k_cred k_cred_live k_addr_limit k_heap k_alloc_plan
       k_icount k_inode_cachep k_log set_vfs set_cred set_addr_limit set_heap
       set_alloc_plan set_icount set_inode_cachep set_log].
  destruct plan as [|[] plan]; destruct cache as [[|o free] fresh_obj n];
    cbn [fst snd k_vfs k_cred k_cred_live k_addr_limit k_heap k_alloc_plan
         k_icount k_inode_cachep k_log set_vfs set_cred set_addr_limit set_heap
         set_alloc_plan set_icount set_inode_cachep set_log lower_inode
         vfs_inode i_version kc_free kc_fresh kc_in_use];
    rewrite ?drop_app_length; repeat split; reflexivity.
Qed.

(** *** The view propagation engine *)

Section Propagation.

Variable unlinkat_service : cred -> Z -> string -> bool -> V -> Z * V.
Variable renameat2_service : cred -> Z -> string -> Z -> string -> Z -> V -> Z * V.

Lemma truncate_all n s : (String.length s <= n)%nat -> truncate n s = s.
Proof.
  revert n. induction s as [|ch s IH]; intros [|n] Hlen; cbn in *;
    try reflexivity; try lia.
  rewrite IH by lia. reflexivity.
Qed.

Lemma snprintf_fits size s :
  Z.of_nat (String.length s) < size -> snprintf size s = s.
Proof. intros Hlen. unfold snprintf. apply truncate_all. lia. Qed.

(** The table, type by type. *)
Lemma spec_active_table t :
  List.filter (spec_active t) projections =
    match t with
    | TYPE_NONE => []
    | TYPE_DEFAULT => [RuntimeRead; RuntimeWrite; Storage]
    | TYPE_READ => [RuntimeDefault; RuntimeWrite; Storage]
    | TYPE_WRITE => [RuntimeDefault; RuntimeRead; Storage]
    | TYPE_FULL => [RuntimeDefault; RuntimeRead; RuntimeWrite; Storage]
    end.
Proof. destruct t; reflexivity. Qed.

(** Symbolic execution of the two propagation entry points: split on the
    mount type and on the allocation plan, unfold the calls, and bring the
    log of the call into the form of a list. *)
Ltac unfold_calls :=
  unfold sdcardfs_propagate_unlink, sdcardfs_propagate_rename, projected,
    projected_pairs,
    override_fsids, kmalloc, kfree, revert_fsids, printk, get_fs, set_fs,
    do_unlinkat, sys_renameat2, alloc_attempt, log, bind, pure, emitted,
    SDCARDFS_SB.

Ltac reduce_kernel :=
  cbn [fst snd k_vfs k_cred k_cred_live k_addr_limit k_heap k_alloc_plan
       k_icount k_inode_cachep k_log set_vfs set_cred set_addr_limit set_heap
       set_alloc_plan set_icount set_inode_cachep set_log
       i_sb s_fs_info options type label negb andb type_eqb
       map replay_unlinks replay_renames].

Ltac run_propagate parent k :=
  let t := fresh "t" in
  let plan := fresh "plan" in
  destruct parent as [[[[? ? ? ? ? ? t ?]]] ?];
  destruct k as [? ? ? ? ? plan ? ? ?];
  destruct t; destruct plan as [|[] [|[] [|[] plan]]];
  unfold_calls; reduce_kernel;
  rewrite ?spec_active_table; reduce_kernel; unfold spec_path, spec_prefix;
  rewrite <- ?app_assoc, ?drop_app_length.

(** A block just allocated is distinct from the live ones, so freeing it
    gives the heap back. *)
Lemma heap_alloc_free (heap : gset addr) :
  ({[fresh heap]} ∪ heap) ∖ {[fresh heap]} = heap.
Proof.
  apply set_eq. intros x.
  rewrite elem_of_difference, elem_of_union, elem_of_singleton.
  pose proof (is_fresh heap) as Hp.
  split.
  - intros [[->|Hx] Hne]; [contradiction | assumption].
  - intros Hx. split; [right; assumption | intros ->; contradiction].
Qed.

Lemma fresh_twice (heap : gset addr) :
  (fresh ({[fresh heap]} ∪ heap) ∉ heap) /\
  fresh heap <> fresh ({[fresh heap]} ∪ heap).
Proof.
  pose proof (is_fresh ({[fresh heap]} ∪ heap)) as Hq.
  rewrite elem_of_union, elem_of_singleton in Hq.
  split; [intros Hin; apply Hq; right; exact Hin
         | intros Heq; apply Hq; left; symmetry; exact Heq].
Qed.

Lemma heap_alloc_free2 (heap : gset addr) :
  ({[fresh ({[fresh heap]} ∪ heap)]} ∪ ({[fresh heap]} ∪ heap))
    ∖ {[fresh heap]} ∖ {[fresh ({[fresh heap]} ∪ heap)]} = heap.
Proof.
  pose proof (is_fresh heap) as Hp.
  destruct (fresh_twice heap) as [Hq Hpq].
  apply set_eq. intros x.
  rewrite !elem_of_difference, !elem_of_union, !elem_of_singleton.
  split.
  - intros [[[->|[->|Hx]] Hne1] Hne2]; [contradiction.. | assumption].
  - intros Hx. repeat split; [right; right; assumption | intros -> | intros ->];
      contradiction.
Qed.

(** sdcardfs_propagate_unlink either fails on one of its two allocations or
    replays the unlink on the projected paths, between taking and giving
    back the identity and the buffer. *)
Lemma propagate_unlink_run (parent : inode) (pathname : string) (k : kernel (V := V)) :
  let r := sdcardfs_propagate_unlink unlinkat_service parent pathname k in
  let evs := emitted k (snd r) in
  k_cred (snd r) = k_cred k /\ k_cred_live (snd r) = k_cred_live k /\
  k_heap (snd r) = k_heap k /\
  ((evs = [OverrideFsids 0 0 None] /\ fst r = - ENOMEM) \/
   (evs = [OverrideFsids 0 0 (Some (k_cred k));
           Kmalloc PATH_MAX GFP_KERNEL None;
           Printk "sdcardfs: unlink propagate_path kmalloc fail\n" [];
           RevertFsids (k_cred k)] /\ fst r = - ENOMEM) \/
   (exists p ops v',
      (p ∉ k_heap k) /\
      replay_unlinks unlinkat_service {| fsuid := 0; fsgid := 0 |}
        (projected parent pathname) 0 (k_vfs k) = (ops, fst r, v') /\
      evs = [OverrideFsids 0 0 (Some (k_cred k));
             Kmalloc PATH_MAX GFP_KERNEL (Some p); SetFs KERNEL_DS]
            ++ ops
            ++ [SetFs (k_addr_limit k); RevertFsids (k_cred k); Kfree p])).
Proof.
  cbn zeta. run_propagate parent k.
  all: rewrite ?heap_alloc_free.
  all: repeat (split; [first [reflexivity | lia]|]).
  all: first
    [ left; split; reflexivity
    | right; left; split; reflexivity
    | right; right; eexists _, _, _;
      split; [apply is_fresh | split; reflexivity] ].
Qed.

Lemma propagate_rename_run (parent : inode) (oldname newname : string)
    (k : kernel (V := V)) :
  let r := sdcardfs_propagate_rename renameat2_service parent oldname newname k in
  let evs := emitted k (snd r) in
  k_cred (snd r) = k_cred k /\ k_cred_live (snd r) = k_cred_live k /\
  k_heap (snd r) = k_heap k /\
  ((evs = [OverrideFsids 0 0 None] /\ fst r = - ENOMEM) \/
   (evs = [OverrideFsids 0 0 (Some (k_cred k));
           Kmalloc PATH_MAX GFP_KERNEL None;
           Printk "sdcardfs: unlink propagate_old_path kmalloc fail\n" [];
           RevertFsids (k_cred k)] /\ fst r = - ENOMEM) \/
   (exists p,
      (p ∉ k_heap k) /\
      evs = [OverrideFsids 0 0 (Some (k_cred k));
             Kmalloc PATH_MAX GFP_KERNEL (Some p);
             Kmalloc PATH_MAX GFP_KERNEL None;
             Printk "sdcardfs: unlink propagate_new_path kmalloc fail\n" [];
             RevertFsids (k_cred k); Kfree p] /\ fst r = - ENOMEM) \/
   (exists p q ops v',
      (p ∉ k_heap k) /\ (q ∉ k_heap k) /\ p <> q /\
      replay_renames renameat2_service {| fsuid := 0; fsgid := 0 |}
        (projected_pairs parent oldname newname) 0 (k_vfs k)
        = (ops, fst r, v') /\
      evs = [OverrideFsids 0 0 (Some (k_cred k));
             Kmalloc PATH_MAX GFP_KERNEL (Some p);
             Kmalloc PATH_MAX GFP_KERNEL (Some q); SetFs KERNEL_DS]
            ++ ops
            ++ [SetFs (k_addr_limit k); RevertFsids (k_cred k); Kfree p; Kfree q])).
Proof.
  cbn zeta. run_propagate parent k.
  all: rewrite ?heap_alloc_free, ?heap_alloc_free2.
  all: repeat (split; [first [reflexivity | lia]|]).
  all: first
    [ left; split; reflexivity
    | right; left; split; reflexivity
    | right; right; left; eexists; split; [apply is_fresh | split; reflexivity]
    | right; right; right; eexists _, _, _, _;
      split; [apply is_fresh |];
      split; [|split; [|split; reflexivity]] ].
  all: match goal with
       | |- context [fresh ({[fresh ?h]} ∪ ?h)] => apply (fresh_twice h)
       end.
Qed.

(** What a replay leaves in the log: one attempt per path, in order, and
    nothing else; the status kept is the last one. *)
Lemma replay_unlinks_log c paths ret v :
  let r := replay_unlinks unlinkat_service c paths ret v in
  let ops := fst (fst r) in
  unlinked ops = paths /\ renamed ops = [] /\
  length (statuses ops) = length paths /\
  last (statuses ops) = match paths with [] => None | _ => Some (snd (fst r)) end /\
  (paths = [] -> snd (fst r) = ret) /\
  acquired ops = [] /\ reverted ops = [] /\ allocated ops = [] /\ freed ops = [] /\
  allocations_succeed ops = true.
Proof.
  revert ret v. induction paths as [|pathname rest IH]; intros ret v.
  - cbn. repeat split; reflexivity.
  - cbn zeta in *. cbn [replay_unlinks fst snd].
    set (r := unlinkat_service c AT_FDCWD pathname false v).
    destruct (IH (fst r) (snd r)) as (Hu & Hr & Hlen & Hlast & Hnil & Ha & Hv & Hal & Hf & Hok).
    repeat split; try assumption; try discriminate.
    + exact (f_equal (cons pathname) Hu).
    + exact (f_equal S Hlen).
    + change (last (fst r :: statuses (fst (fst
               (replay_unlinks unlinkat_service c rest (fst r) (snd r)))))
             = Some (snd (fst (replay_unlinks unlinkat_service c rest (fst r) (snd r))))).
      rewrite last_cons, Hlast.
      destruct rest; [rewrite Hnil by reflexivity|]; reflexivity.
Qed.

Lemma replay_renames_log c pairs ret v :
  let r := replay_renames renameat2_service c pairs ret v in
  let ops := fst (fst r) in
  renamed ops = pairs /\ unlinked ops = [] /\
  length (statuses ops) = length pairs /\
  last (statuses ops) = match pairs with [] => None | _ => Some (snd (fst r)) end /\
  (pairs = [] -> snd (fst r) = ret) /\
  acquired ops = [] /\ reverted ops = [] /\ allocated ops = [] /\ freed ops = [] /\
  allocations_succeed ops = true.
Proof.
  revert ret v. induction pairs as [|[oldname newname] rest IH]; intros ret v.
  - cbn. repeat split; reflexivity.
  - cbn zeta in *. cbn [replay_renames fst snd].
    set (r := renameat2_service c AT_FDCWD oldname AT_FDCWD newname
                RENAME_NOPROPAGATE v).
    destruct (IH (fst r) (snd r)) as (Hu & Hr & Hlen & Hlast & Hnil & Ha & Hv & Hal & Hf & Hok).
    repeat split; try assumption; try discriminate.
    + exact (f_equal (cons (oldname, newname)) Hu).
    + exact (f_equal S Hlen).
    + change (last (fst r :: statuses (fst (fst
               (replay_renames renameat2_service c rest (fst r) (snd r)))))
             = Some (snd (fst (replay_renames renameat2_service c rest (fst r) (snd r))))).
      rewrite last_cons, Hlast.
      destruct rest; [rewrite Hnil by reflexivity|]; reflexivity.
Qed.

(** Case analysis on a run, with the facts about the replay at hand. *)
Ltac observe :=
  unfold unlinked, renamed, statuses, acquired, reverted, allocated, freed in *;
  rewrite ?omap_app in *;
  cbn [omap list_omap op_status unlink_target rename_target app] in *.

Ltac cases_unlink parent pathname k :=
  let Hrun := fresh "Hrun" in
  let Hlog := fresh "Hlog" in
  pose proof (propagate_unlink_run parent pathname k) as Hrun; cbn zeta in Hrun;
  destruct Hrun as (Hcred & Hlive & Hheap &
    [[He Hret] | [[He Hret] | (p & ops & v' & Hp & Hrep & He)]]);
  [ | | pose proof (replay_unlinks_log {| fsuid := 0; fsgid := 0 |}
                      (projected parent pathname) 0 (k_vfs k)) as Hlog;
        cbn zeta in Hlog; rewrite Hrep in Hlog; cbn [fst snd] in Hlog;
        destruct Hlog as (Hun & Hrn & Hlen & Hlast & Hnil & Hacq & Hrev & Hall & Hfree & Hok) ];
  rewrite He in *.

Ltac cases_rename parent oldname newname k :=
  let Hrun := fresh "Hrun" in
  let Hlog := fresh "Hlog" in
  pose proof (propagate_rename_run parent oldname newname k) as Hrun;
  cbn zeta in Hrun;
  destruct Hrun as (Hcred & Hlive & Hheap &
    [[He Hret] | [[He Hret] | [(p & Hp & He & Hret) |
      (p & q & ops & v' & Hp & Hq & Hpq & Hrep & He)]]]);
  [ | | | pose proof (replay_renames_log {| fsuid := 0; fsgid := 0 |}
                        (projected_pairs parent oldname newname) 0 (k_vfs k)) as Hlog;
          cbn zeta in Hlog; rewrite Hrep in Hlog; cbn [fst snd] in Hlog;
          destruct Hlog as (Hrn & Hun & Hlen & Hlast & Hnil & Hacq & Hrev & Hall & Hfree & Hok) ];
  rewrite He in *.

(** C1, as amended.  When the credential substitution and the buffer
    allocations succeed, sdcardfs_propagate_unlink and
    sdcardfs_propagate_rename attempt exactly the projections whose
    condition in the table holds, in the order of the table, each on the
    path prefix + label + relative path cut to at most PATH_MAX - 1
    characters; a path shorter than PATH_MAX is not cut. *)
Theorem propagate_projections (parent : inode) (pathname oldname newname : string)
    (k : kernel (V := V)) :
  let t := type (options (SDCARDFS_SB (i_sb parent))) in
  let lbl := fmt_s (label (options (SDCARDFS_SB (i_sb parent)))) in
  let on := List.filter (spec_active t) projections in
  let uevs :=
    emitted k (snd (sdcardfs_propagate_unlink unlinkat_service parent pathname k)) in
  let revs :=
    emitted k (snd (sdcardfs_propagate_rename renameat2_service parent
                      oldname newname k)) in
  (allocations_succeed uevs = true ->
     unlinked uevs = map (fun p => snprintf PATH_MAX (spec_path lbl p pathname)) on) /\
  (allocations_succeed revs = true ->
     renamed revs = map (fun p => (snprintf PATH_MAX (spec_path lbl p oldname),
                                   snprintf PATH_MAX (spec_path lbl p newname))) on) /\
  (forall p rel, Z.of_nat (String.length (spec_path lbl p rel)) < PATH_MAX ->
     snprintf PATH_MAX (spec_path lbl p rel) = spec_path lbl p rel).
Proof.
  cbn zeta. split; [|split].
  - cases_unlink parent pathname k; intros Hall'; try discriminate Hall'.
    observe. rewrite Hun, app_nil_r. reflexivity.
  - cases_rename parent oldname newname k; intros Hall'; try discriminate Hall'.
    observe. rewrite Hrn, app_nil_r. reflexivity.
  - intros p rel. apply snprintf_fits.
Qed.

(** C2, as amended.  For a mount of type WRITE, when the allocations
    succeed, sdcardfs_propagate_unlink and sdcardfs_propagate_rename attempt
    exactly three projections, under /mnt/runtime/default/, /mnt/runtime/read/
    and /storage/ in this order; only the /mnt/runtime/write/ prefix is
    skipped. *)
Theorem propagate_write_view (parent : inode) (pathname oldname newname : string)
    (k : kernel (V := V)) :
  type (options (SDCARDFS_SB (i_sb parent))) = TYPE_WRITE ->
  let lbl := fmt_s (label (options (SDCARDFS_SB (i_sb parent)))) in
  let at_ (pre rel : string) := snprintf PATH_MAX (pre +:+ lbl +:+ rel) in
  let uevs :=
    emitted k (snd (sdcardfs_propagate_unlink unlinkat_service parent pathname k)) in
  let revs :=
    emitted k (snd (sdcardfs_propagate_rename renameat2_service parent
                      oldname newname k)) in
  (allocations_succeed uevs = true ->
     unlinked uevs = [at_ "/mnt/runtime/default/" pathname;
                      at_ "/mnt/runtime/read/" pathname;
                      at_ "/storage/" pathname]) /\
  (allocations_succeed revs = true ->
     renamed revs =
       [(at_ "/mnt/runtime/default/" oldname, at_ "/mnt/runtime/default/" newname);
        (at_ "/mnt/runtime/read/" oldname, at_ "/mnt/runtime/read/" newname);
        (at_ "/storage/" oldname, at_ "/storage/" newname)]).
Proof.
  intros Ht. cbn zeta. split.
  - cases_unlink parent pathname k; intros Hall'; try discriminate Hall'.
    observe. rewrite Hun, app_nil_r. unfold projected.
    rewrite spec_active_table, Ht. reflexivity.
  - cases_rename parent oldname newname k; intros Hall'; try discriminate Hall'.
    observe. rewrite Hrn, app_nil_r. unfold projected_pairs.
    rewrite spec_active_table, Ht. reflexivity.
Qed.

(** C4.  In a call of sdcardfs_propagate_unlink or sdcardfs_propagate_rename
    that attempts at least one projection, the status returned is the status
    of the last attempt; and there are as many attempts as active
    projections, whatever the earlier attempts returned. *)
Theorem propagate_last_status (parent : inode) (pathname oldname newname : string)
    (k : kernel (V := V)) :
  let attempts :=
    length (List.filter (spec_active (type (options (SDCARDFS_SB (i_sb parent)))))
              projections) in
  let ru := sdcardfs_propagate_unlink unlinkat_service parent pathname k in
  let rr := sdcardfs_propagate_rename renameat2_service parent oldname newname k in
  (statuses (emitted k (snd ru)) <> [] ->
     last (statuses (emitted k (snd ru))) = Some (fst ru) /\
     length (statuses (emitted k (snd ru))) = attempts) /\
  (statuses (emitted k (snd rr)) <> [] ->
     last (statuses (emitted k (snd rr))) = Some (fst rr) /\
     length (statuses (emitted k (snd rr))) = attempts).
Proof.
  cbn zeta. split.
  - cases_unlink parent pathname k; intros Hne; try (exfalso; apply Hne; reflexivity).
    observe. rewrite app_nil_r in *. split.
    + rewrite Hlast. destruct (projected parent pathname); [|reflexivity].
      destruct (omap op_status ops); [contradiction | discriminate].
    + rewrite Hlen. unfold projected. apply length_map.
  - cases_rename parent oldname newname k; intros Hne;
      try (exfalso; apply Hne; reflexivity).
    observe. rewrite app_nil_r in *. split.
    + rewrite Hlast. destruct (projected_pairs parent oldname newname); [|reflexivity].
      destruct (omap op_status ops); [contradiction | discriminate].
    + rewrite Hlen. unfold projected_pairs. apply length_map.
Qed.

(** C5.  On every exit path of sdcardfs_propagate_unlink and
    sdcardfs_propagate_rename, the out-of-memory ones included, the identity
    acquired by override_fsids is reverted exactly once and every path
    buffer that was allocated is freed exactly once; neither outlives the
    call. *)
Theorem propagate_releases (parent : inode) (pathname oldname newname : string)
    (k : kernel (V := V)) :
  releases_all k (snd (sdcardfs_propagate_unlink unlinkat_service parent pathname k)) /\
  releases_all k (snd (sdcardfs_propagate_rename renameat2_service parent
                         oldname newname k)).
Proof.
  unfold releases_all. cbn zeta. split.
  - cases_unlink parent pathname k; observe;
      rewrite ?Hacq, ?Hrev, ?Hall, ?Hfree; cbn [app length];
      repeat split; try assumption; try lia;
      first [apply NoDup_nil_2 | apply NoDup_singleton].
  - cases_rename parent oldname newname k; observe;
      rewrite ?Hacq, ?Hrev, ?Hall, ?Hfree; cbn [app length];
      repeat split; try assumption; try lia;
      first [ apply NoDup_nil_2 | apply NoDup_singleton
            | apply NoDup_cons; split;
              [rewrite list_elem_of_singleton; exact Hpq | apply NoDup_singleton] ].
Qed.

(** C6, as amended.  For a mount of type NONE, sdcardfs_propagate_unlink and
    sdcardfs_propagate_rename perform no delete and no rename; they return 0
    when the credential substitution and the buffer allocations succeed and
    -ENOMEM when one of them fails. *)
Theorem propagate_none (parent : inode) (pathname oldname newname : string)
    (k : kernel (V := V)) :
  type (options (SDCARDFS_SB (i_sb parent))) = TYPE_NONE ->
  let ru := sdcardfs_propagate_unlink unlinkat_service parent pathname k in
  let rr := sdcardfs_propagate_rename renameat2_service parent oldname newname k in
  statuses (emitted k (snd ru)) = [] /\
  statuses (emitted k (snd rr)) = [] /\
  fst ru = (if allocations_succeed (emitted k (snd ru)) then 0 else - ENOMEM) /\
  fst rr = (if allocations_succeed (emitted k (snd rr)) then 0 else - ENOMEM).
Proof.
  intros Ht. cbn zeta.
  assert (Hu0 : projected parent pathname = []).
  { unfold projected. rewrite spec_active_table, Ht. reflexivity. }
  assert (Hr0 : projected_pairs parent oldname newname = []).
  { unfold projected_pairs. rewrite spec_active_table, Ht. reflexivity. }
  assert (Hu : statuses (emitted k (snd (sdcardfs_propagate_unlink unlinkat_service
                 parent pathname k))) = [] /\
               fst (sdcardfs_propagate_unlink unlinkat_service parent pathname k) =
               (if allocations_succeed (emitted k (snd (sdcardfs_propagate_unlink
                     unlinkat_service parent pathname k))) then 0 else - ENOMEM)).
  { cases_unlink parent pathname k; try (split; [reflexivity | exact Hret]).
    rewrite Hu0 in *. cbn in Hrep. injection Hrep as <- <- _.
    split; reflexivity. }
  assert (Hr : statuses (emitted k (snd (sdcardfs_propagate_rename renameat2_service
                 parent oldname newname k))) = [] /\
               fst (sdcardfs_propagate_rename renameat2_service parent oldname newname k) =
               (if allocations_succeed (emitted k (snd (sdcardfs_propagate_rename
                     renameat2_service parent oldname newname k))) then 0 else - ENOMEM)).
  { cases_rename parent oldname newname k; try (split; [reflexivity | exact Hret]).
    rewrite Hr0 in *. cbn in Hrep. injection Hrep as <- <- _.
    split; reflexivity. }
  tauto.
Qed.

(** *** Further properties of the propagation engine *)

(** What a propagation call leaves of the kernel state: the log is
    extended, the address limit, the inode counts and the inode cache are
    as before; whether the allocations succeed is decided by the plan; if
    they do, status and lower file system are those of the replay under
    the identity (0, 0), and if not the lower file system is untouched. *)
Lemma propagate_unlink_frame (parent : inode) (pathname : string) (k : kernel (V := V)) :
  let r := sdcardfs_propagate_unlink unlinkat_service parent pathname k in
  let evs := emitted k (snd r) in
  let rep := replay_unlinks unlinkat_service {| fsuid := 0; fsgid := 0 |}
               (projected parent pathname) 0 (k_vfs k) in
  k_log (snd r) = k_log k ++ evs /\
  k_addr_limit (snd r) = k_addr_limit k /\
  k_icount (snd r) = k_icount k /\
  k_inode_cachep (snd r) = k_inode_cachep k /\
  allocations_succeed evs = plan_ok 2 (k_alloc_plan k) /\
  (if allocations_succeed evs
   then fst r = snd (fst rep) /\ k_vfs (snd r) = snd rep
   else fst r = - ENOMEM /\ k_vfs (snd r) = k_vfs k /\ statuses evs = []).
Proof.
  cbn zeta. run_propagate parent k.
  all: cbn [allocations_succeed plan_ok firstn forallb failed_allocation negb andb].
  all: repeat split; reflexivity.
Qed.

Lemma propagate_rename_frame (parent : inode) (oldname newname : string)
    (k : kernel (V := V)) :
  let r := sdcardfs_propagate_rename renameat2_service parent oldname newname k in
  let evs := emitted k (snd r) in
  let rep := replay_renames renameat2_service {| fsuid := 0; fsgid := 0 |}
               (projected_pairs parent oldname newname) 0 (k_vfs k) in
  k_log (snd r) = k_log k ++ evs /\
  k_addr_limit (snd r) = k_addr_limit k /\
  k_icount (snd r) = k_icount k /\
  k_inode_cachep (snd r) = k_inode_cachep k /\
  allocations_succeed evs = plan_ok 3 (k_alloc_plan k) /\
  (if allocations_succeed evs
   then fst r = snd (fst rep) /\ k_vfs (snd r) = snd rep
   else fst r = - ENOMEM /\ k_vfs (snd r) = k_vfs k /\ statuses evs = []).
Proof.
  cbn zeta. run_propagate parent k.
  all: cbn [allocations_succeed plan_ok firstn forallb failed_allocation negb andb].
  all: repeat split; reflexivity.
Qed.

Lemma replay_unlinks_quiet c paths ret v :
  Forall quiet (fst (fst (replay_unlinks unlinkat_service c paths ret v))).
Proof.
  revert ret v. induction paths as [|pathname rest IH]; intros ret v.
  - constructor.
  - cbn [replay_unlinks fst snd]. constructor; [split; reflexivity | apply IH].
Qed.

Lemma replay_renames_quiet c pairs ret v :
  Forall quiet (fst (fst (replay_renames renameat2_service c pairs ret v))).
Proof.
  revert ret v. induction pairs as [|[oldname newname] rest IH]; intros ret v.
  - constructor.
  - cbn [replay_renames fst snd].
    constructor; [repeat split; reflexivity | apply IH].
Qed.

(** The paths a call attempts: the projected ones if the allocations
    succeed, none otherwise. *)
Lemma propagate_unlink_attempts (parent : inode) (pathname : string)
    (k : kernel (V := V)) :
  let evs :=
    emitted k (snd (sdcardfs_propagate_unlink unlinkat_service parent pathname k)) in
  unlinked evs = (if allocations_succeed evs then projected parent pathname else []) /\
  renamed evs = [] /\ Forall quiet evs.
Proof.
  cbn zeta. cases_unlink parent pathname k.
  - repeat split; repeat constructor.
  - repeat split; repeat constructor.
  - assert (Hquiet : Forall quiet ops).
    { pose proof (replay_unlinks_quiet {| fsuid := 0; fsgid := 0 |}
                    (projected parent pathname) 0 (k_vfs k)) as Hq.
      rewrite Hrep in Hq. exact Hq. }
    unfold allocations_succeed. rewrite !forallb_app.
    change (forallb (fun e => negb (failed_allocation e)) ops)
      with (allocations_succeed ops).
    rewrite Hok. observe. rewrite Hun, Hrn, app_nil_r.
    repeat split.
    do 3 (constructor; [exact I|]).
    apply Forall_app; split; [exact Hquiet | repeat constructor].
Qed.

Lemma propagate_rename_attempts (parent : inode) (oldname newname : string)
    (k : kernel (V := V)) :
  let evs :=
    emitted k (snd (sdcardfs_propagate_rename renameat2_service parent
                      oldname newname k)) in
  renamed evs = (if allocations_succeed evs
                 then projected_pairs parent oldname newname else []) /\
  unlinked evs = [] /\ Forall quiet evs.
Proof.
  cbn zeta. cases_rename parent oldname newname k.
  - repeat split; repeat constructor.
  - repeat split; repeat constructor.
  - repeat split; repeat constructor.
  - assert (Hquiet : Forall quiet ops).
    { pose proof (replay_renames_quiet {| fsuid := 0; fsgid := 0 |}
                    (projected_pairs parent oldname newname) 0 (k_vfs k)) as Hqt.
      rewrite Hrep in Hqt. exact Hqt. }
    unfold allocations_succeed. rewrite !forallb_app.
    change (forallb (fun e => negb (failed_allocation e)) ops)
      with (allocations_succeed ops).
    rewrite Hok. observe. rewrite Hun, Hrn, app_nil_r.
    repeat split.
    do 4 (constructor; [exact I|]).
    apply Forall_app; split; [exact Hquiet | repeat constructor].
Qed.

Lemma replay_unlinks_last c paths ret v :
  let r := replay_unlinks unlinkat_service c paths ret v in
  last (unlink_attempts (fst (fst r))) =
    match last paths with
    | Some pathname => Some (pathname, snd (fst r))
    | None => None
    end.
Proof.
  revert ret v. induction paths as [|pathname rest IH]; intros ret v; [reflexivity|].
  cbn zeta in *. cbn [replay_unlinks fst snd].
  set (r := unlinkat_service c AT_FDCWD pathname false v).
  specialize (IH (fst r) (snd r)).
  change (last ((pathname, fst r) :: unlink_attempts (fst (fst
            (replay_unlinks unlinkat_service c rest (fst r) (snd r)))))
          = match last (pathname :: rest) with
            | Some q => Some (q, snd (fst (replay_unlinks unlinkat_service c rest
                                            (fst r) (snd r))))
            | None => None
            end).
  rewrite !last_cons, IH. destruct rest as [|q rest]; [reflexivity|].
  destruct (last (q :: rest)) eqn:Hl; [reflexivity|].
  apply last_None in Hl. discriminate.
Qed.

Lemma replay_renames_last c pairs ret v :
  let r := replay_renames renameat2_service c pairs ret v in
  last (rename_attempts (fst (fst r))) =
    match last pairs with
    | Some (oldname, newname) => Some (oldname, newname, snd (fst r))
    | None => None
    end.
Proof.
  revert ret v. induction pairs as [|[oldname newname] rest IH]; intros ret v;
    [reflexivity|].
  cbn zeta in *. cbn [replay_renames fst snd].
  set (r := renameat2_service c AT_FDCWD oldname AT_FDCWD newname
              RENAME_NOPROPAGATE v).
  specialize (IH (fst r) (snd r)).
  change (last ((oldname, newname, fst r) :: rename_attempts (fst (fst
            (replay_renames renameat2_service c rest (fst r) (snd r)))))
          = match last ((oldname, newname) :: rest) with
            | Some (o, n) => Some (o, n, snd (fst (replay_renames renameat2_service c
                                                     rest (fst r) (snd r))))
            | None => None
            end).
  rewrite !last_cons, IH. destruct rest as [|q rest]; [reflexivity|].
  destruct (last (q :: rest)) as [[o n]|] eqn:Hl; [reflexivity|].
  apply last_None in Hl. discriminate.
Qed.

Lemma truncate_length n s : (String.length (truncate n s) <= n)%nat.
Proof.
  revert s. induction n as [|n IH]; intros [|ch s]; cbn; try lia.
  specialize (IH s). lia.
Qed.

Lemma snprintf_length size s :
  0 < size -> Z.of_nat (String.length (snprintf size s)) < size.
Proof.
  intros Hsize. unfold snprintf.
  pose proof (truncate_length (Z.to_nat (size - 1)) s). lia.
Qed.

(** Cutting a string does not give it a prefix it did not have. *)
Lemma prefix_truncate pre n s :
  String.prefix pre (truncate n s) = true -> String.prefix pre s = true.
Proof.
  revert n s. induction pre as [|a pre IH]; intros n s Hpre;
    [destruct s; reflexivity|].
  destruct n as [|n]; destruct s as [|b s]; cbn in *; try discriminate.
  destruct (ascii_dec a b); [eapply IH; eassumption | discriminate].
Qed.

Lemma prefix_snprintf pre size s :
  String.prefix pre s = false -> String.prefix pre (snprintf size s) = false.
Proof.
  intros Hno. destruct (String.prefix pre (snprintf size s)) eqn:Hpre; [|reflexivity].
  apply prefix_truncate in Hpre. congruence.
Qed.

Lemma plan_ok_3_2 plan : plan_ok 3 plan = true -> plan_ok 2 plan = true.
Proof. destruct plan as [|[] [|[] [|[] plan]]]; cbn; congruence. Qed.

(** X1.  If one of the allocations of a propagation call fails (one of the
    first two of the plan for an unlink, of the first three for a rename),
    the call returns -ENOMEM, performs no delete and no rename, and leaves
    the lower file system as it was, whatever the type of the mount. *)
Theorem propagate_out_of_memory (parent : inode) (pathname oldname newname : string)
    (k : kernel (V := V)) :
  let ru := sdcardfs_propagate_unlink unlinkat_service parent pathname k in
  let rr := sdcardfs_propagate_rename renameat2_service parent oldname newname k in
  (plan_ok 2 (k_alloc_plan k) = false ->
     fst ru = - ENOMEM /\ statuses (emitted k (snd ru)) = [] /\
     k_vfs (snd ru) = k_vfs k) /\
  (plan_ok 3 (k_alloc_plan k) = false ->
     fst rr = - ENOMEM /\ statuses (emitted k (snd rr)) = [] /\
     k_vfs (snd rr) = k_vfs k).
Proof.
  cbn zeta. split; intros Hfail.
  - destruct (propagate_unlink_frame parent pathname k)
      as (_ & _ & _ & _ & Hplan & Hcase).
    rewrite Hplan, Hfail in Hcase. tauto.
  - destruct (propagate_rename_frame parent oldname newname k)
      as (_ & _ & _ & _ & Hplan & Hcase).
    rewrite Hplan, Hfail in Hcase. tauto.
Qed.

(** X2.  A propagation call only appends to the kernel log and gives back
    the address limit it found (set_fs(old_fs)); it touches neither the
    reference counts of the lower inodes nor the inode cache. *)
Theorem propagate_restores_kernel (parent : inode) (pathname oldname newname : string)
    (k : kernel (V := V)) :
  let ku := snd (sdcardfs_propagate_unlink unlinkat_service parent pathname k) in
  let kr := snd (sdcardfs_propagate_rename renameat2_service parent
                   oldname newname k) in
  (k_log ku = k_log k ++ emitted k ku /\ k_addr_limit ku = k_addr_limit k /\
   k_icount ku = k_icount k /\ k_inode_cachep ku = k_inode_cachep k) /\
  (k_log kr = k_log k ++ emitted k kr /\ k_addr_limit kr = k_addr_limit k /\
   k_icount kr = k_icount k /\ k_inode_cachep kr = k_inode_cachep k).
Proof.
  cbn zeta. split.
  - destruct (propagate_unlink_frame parent pathname k) as (Hl & Ha & Hi & Hc & _).
    repeat split; assumption.
  - destruct (propagate_rename_frame parent oldname newname k)
      as (Hl & Ha & Hi & Hc & _).
    repeat split; assumption.
Qed.

(** X3.  When its allocations succeed, a propagation call returns the
    status, and leaves the lower file system in the state, of deleting
    (renaming) the projected paths one after the other under the identity
    uid 0, gid 0, starting from status 0. *)
Theorem propagate_runs_as_root (parent : inode) (pathname oldname newname : string)
    (k : kernel (V := V)) :
  let root := {| fsuid := 0; fsgid := 0 |} in
  let ru := sdcardfs_propagate_unlink unlinkat_service parent pathname k in
  let rr := sdcardfs_propagate_rename renameat2_service parent oldname newname k in
  (plan_ok 2 (k_alloc_plan k) = true ->
     let rep := replay_unlinks unlinkat_service root (projected parent pathname) 0
                  (k_vfs k) in
     fst ru = snd (fst rep) /\ k_vfs (snd ru) = snd rep) /\
  (plan_ok 3 (k_alloc_plan k) = true ->
     let rep := replay_renames renameat2_service root
                  (projected_pairs parent oldname newname) 0 (k_vfs k) in
     fst rr = snd (fst rep) /\ k_vfs (snd rr) = snd rep).
Proof.
  cbn zeta. split; intros Hok.
  - destruct (propagate_unlink_frame parent pathname k)
      as (_ & _ & _ & _ & Hplan & Hcase).
    rewrite Hplan, Hok in Hcase. exact Hcase.
  - destruct (propagate_rename_frame parent oldname newname k)
      as (_ & _ & _ & _ & Hplan & Hcase).
    rewrite Hplan, Hok in Hcase. exact Hcase.
Qed.


(** X5.  Every path a propagation call hands to do_unlinkat or sys_renameat2
    is shorter than PATH_MAX, the size of the buffer it was formatted
    into. *)
Theorem propagate_paths_fit (parent : inode) (pathname oldname newname : string)
    (k : kernel (V := V)) :
  0 < PATH_MAX ->
  Forall (fun p => Z.of_nat (String.length p) < PATH_MAX)
    (unlinked (emitted k (snd (sdcardfs_propagate_unlink unlinkat_service
                                 parent pathname k)))) /\
  Forall (fun pq => Z.of_nat (String.length (fst pq)) < PATH_MAX /\
                    Z.of_nat (String.length (snd pq)) < PATH_MAX)
    (renamed (emitted k (snd (sdcardfs_propagate_rename renameat2_service
                                parent oldname newname k)))).
Proof.
  intros Hmax. split.
  - destruct (propagate_unlink_attempts parent pathname k) as (-> & _).
    destruct (allocations_succeed _); [|constructor].
    unfold projected. apply Forall_map, Forall_forall. intros p _.
    apply snprintf_length, Hmax.
  - destruct (propagate_rename_attempts parent oldname newname k) as (-> & _).
    destruct (allocations_succeed _); [|constructor].
    unfold projected_pairs. apply Forall_map, Forall_forall. intros p _.
    split; apply snprintf_length, Hmax.
Qed.

(** X6.  A propagation call never triggers propagation again: every delete
    is made relative to AT_FDCWD with propagate = false, every rename
    relative to AT_FDCWD with the flag RENAME_NOPROPAGATE; and an unlink
    call renames nothing, a rename call deletes nothing. *)
Theorem propagate_never_repropagates (parent : inode)
    (pathname oldname newname : string) (k : kernel (V := V)) :
  let uevs :=
    emitted k (snd (sdcardfs_propagate_unlink unlinkat_service parent pathname k)) in
  let revs :=
    emitted k (snd (sdcardfs_propagate_rename renameat2_service parent
                      oldname newname k)) in
  Forall quiet uevs /\ renamed uevs = [] /\
  Forall quiet revs /\ unlinked revs = [].
Proof.
  cbn zeta.
  destruct (propagate_unlink_attempts parent pathname k) as (_ & Hr & Hq).
  destruct (propagate_rename_attempts parent oldname newname k) as (_ & Hu & Hq').
  repeat split; assumption.
Qed.

(** X7.  On a mount whose type is not NONE, when the allocations succeed,
    the last delete (rename) of a propagation call is the one under
    /storage/, and the status the call returns is the status of that one. *)
Theorem propagate_storage_last (parent : inode) (pathname oldname newname : string)
    (k : kernel (V := V)) :
  type (options (SDCARDFS_SB (i_sb parent))) <> TYPE_NONE ->
  let at_storage (rel : string) :=
    snprintf PATH_MAX
      ("/storage/" +:+ fmt_s (label (options (SDCARDFS_SB (i_sb parent)))) +:+ rel) in
  let ru := sdcardfs_propagate_unlink unlinkat_service parent pathname k in
  let rr := sdcardfs_propagate_rename renameat2_service parent oldname newname k in
  (plan_ok 2 (k_alloc_plan k) = true ->
     last (unlink_attempts (emitted k (snd ru))) = Some (at_storage pathname, fst ru)) /\
  (plan_ok 3 (k_alloc_plan k) = true ->
     last (rename_attempts (emitted k (snd rr)))
     = Some (at_storage oldname, at_storage newname, fst rr)).
Proof.
  intros Ht. cbn zeta. split; intros Hplan.
  - destruct (propagate_unlink_frame parent pathname k)
      as (_ & _ & _ & _ & Hsucc & _).
    rewrite Hplan in Hsucc.
    cases_unlink parent pathname k; try discriminate Hsucc.
    pose proof (replay_unlinks_last {| fsuid := 0; fsgid := 0 |}
                  (projected parent pathname) 0 (k_vfs k)) as Hl.
    cbn zeta in Hl. rewrite Hrep in Hl. cbn [fst snd] in Hl.
    unfold unlink_attempts in *. rewrite !omap_app. cbn [omap list_omap app].
    rewrite app_nil_r, Hl. unfold projected. rewrite spec_active_table.
    destruct (type (options (SDCARDFS_SB (i_sb parent)))); try contradiction;
      reflexivity.
  - destruct (propagate_rename_frame parent oldname newname k)
      as (_ & _ & _ & _ & Hsucc & _).
    rewrite Hplan in Hsucc.
    cases_rename parent oldname newname k; try discriminate Hsucc.
    pose proof (replay_renames_last {| fsuid := 0; fsgid := 0 |}
                  (projected_pairs parent oldname newname) 0 (k_vfs k)) as Hl.
    cbn zeta in Hl. rewrite Hrep in Hl. cbn [fst snd] in Hl.
    unfold rename_attempts in *. rewrite !omap_app. cbn [omap list_omap app].
    rewrite app_nil_r, Hl. unfold projected_pairs. rewrite spec_active_table.
    destruct (type (options (SDCARDFS_SB (i_sb parent)))); try contradiction;
      reflexivity.
Qed.

(** X8.  A propagation call on a DEFAULT, READ or WRITE view never attempts
    a path under that view's own runtime directory, however long the label
    and the name are. *)
Theorem propagate_skips_own_view (parent : inode) (pathname oldname newname : string)
    (k : kernel (V := V)) (own : string) :
  own_prefix (type (options (SDCARDFS_SB (i_sb parent)))) = Some own ->
  Forall (fun p => String.prefix own p = false)
    (unlinked (emitted k (snd (sdcardfs_propagate_unlink unlinkat_service
                                 parent pathname k)))) /\
  Forall (fun pq => String.prefix own (fst pq) = false /\
                    String.prefix own (snd pq) = false)
    (renamed (emitted k (snd (sdcardfs_propagate_rename renameat2_service
                                parent oldname newname k)))).
Proof.
  intros Hown. split.
  - destruct (propagate_unlink_attempts parent pathname k) as (-> & _).
    destruct (allocations_succeed _); [|constructor].
    unfold projected. rewrite spec_active_table.
    destruct (type (options (SDCARDFS_SB (i_sb parent)))); try discriminate Hown;
      injection Hown as <-; cbn [map];
      repeat (constructor; [apply prefix_snprintf; reflexivity|]); constructor.
  - destruct (propagate_rename_attempts parent oldname newname k) as (-> & _).
    destruct (allocations_succeed _); [|constructor].
    unfold projected_pairs. rewrite spec_active_table.
    destruct (type (options (SDCARDFS_SB (i_sb parent)))); try discriminate Hown;
      injection Hown as <-; cbn [map fst snd];
      repeat (constructor; [split; apply prefix_snprintf; reflexivity|]);
      constructor.
Qed.

(** X9.  When its allocations succeed, a rename call goes through the same
    projections as an unlink call would: its old paths are those an unlink
    of the old name attempts, its new paths those an unlink of the new name
    attempts, in the same order. *)
Theorem rename_follows_unlink (parent : inode) (oldname newname : string)
    (k : kernel (V := V)) :
  plan_ok 3 (k_alloc_plan k) = true ->
  let revs :=
    emitted k (snd (sdcardfs_propagate_rename renameat2_service parent
                      oldname newname k)) in
  let uevs (name : string) :=
    emitted k (snd (sdcardfs_propagate_unlink unlinkat_service parent name k)) in
  map fst (renamed revs) = unlinked (uevs oldname) /\
  map snd (renamed revs) = unlinked (uevs newname).
Proof.
  intros Hplan. cbn zeta.
  destruct (propagate_rename_frame parent oldname newname k)
    as (_ & _ & _ & _ & Hr & _).
  destruct (propagate_unlink_frame parent oldname k) as (_ & _ & _ & _ & Ho & _).
  destruct (propagate_unlink_frame parent newname k) as (_ & _ & _ & _ & Hn & _).
  destruct (propagate_rename_attempts parent oldname newname k) as (-> & _).
  destruct (propagate_unlink_attempts parent oldname k) as (-> & _).
  destruct (propagate_unlink_attempts parent newname k) as (-> & _).
  rewrite Hr, Ho, Hn, Hplan, (plan_ok_3_2 _ Hplan).
  unfold projected_pairs, projected. rewrite !map_map. split; reflexivity.
Qed.

End Propagation.

End Properties.

(** *** The options shown *)

Lemma string_app_assoc (a b c : string) : (a +:+ b) +:+ c = a +:+ (b +:+ c).
Proof.
  induction a as [|ch a IH]; [reflexivity|].
  change (String ch ((a +:+ b) +:+ c) = String ch (a +:+ (b +:+ c))).
  f_equal. exact IH.
Qed.

Lemma string_app_nil_r (a : string) : a +:+ "" = a.
Proof.
  induction a as [|ch a IH]; [reflexivity|].
  change (String ch (a +:+ "") = String ch a). f_equal. exact IH.
Qed.

Lemma string_cons_app_nonempty ch (a b : string) : String ch a +:+ b <> "".
Proof. change (String ch (a +:+ b) <> ""). discriminate. Qed.

(** X16.  sdcardfs_show_options returns 0 and only appends to the text of
    the seq_file; what it appends is empty exactly when the six options it
    looks at (uid, gid, sdfs_gid, sdfs_mask, multi_user, reserved) all have
    their default, and begins with a comma otherwise. *)
Theorem show_options_appends (m : seq_file) (root : dentry) :
  let r := sdcardfs_show_options m root in
  fst r = 0 /\
  exists t, snd r = m +:+ t /\
            (t = "" <-> default_shown (options (SDCARDFS_SB (d_sb root)))) /\
            (t = "" \/ exists t', t = String "," t').
Proof.
  unfold sdcardfs_show_options, default_shown. cbn zeta.
  set (opts := options (SDCARDFS_SB (d_sb root))).
  split; [reflexivity|].
  destruct (Z.eqb_spec (fs_low_uid opts) 0) as [E1|E1],
           (Z.eqb_spec (fs_low_gid opts) 0) as [E2|E2],
           (Z.eqb_spec (sdfs_gid opts) 0) as [E3|E3],
           (Z.eqb_spec (sdfs_mask opts) 0) as [E4|E4],
           (multi_user opts) eqn:E5,
           (Z.eqb_spec (reserved_mb opts) 0) as [E6|E6]; cbn [negb snd].
  all: eexists; split;
    [ rewrite ?string_app_assoc;
      first [reflexivity | symmetry; apply string_app_nil_r] | ].
  all: split;
    [split; [intros Ht; try discriminate Ht;
             try (exfalso; exact (string_cons_app_nonempty _ _ _ Ht))
            | intros Hd] | ].
  all: try (repeat split; (assumption || reflexivity)).
  all: try (exfalso; tauto).
  all: try (exfalso; destruct Hd as (? & ? & ? & ? & ? & ?); discriminate).
  all: first [left; reflexivity | right; eexists; reflexivity].
Qed.

(** *** Teardown and the inode cache *)

Section TeardownProperties.

Context `{Headers} {V : Type}.
Variable lower_umount_begin : addr -> V -> V.

Ltac unfold_teardown :=
  unfold Teardown.sdcardfs_put_super, Teardown.sdcardfs_umount_begin,
    Teardown.sdcardfs_init_inode_cache, Teardown.sdcardfs_destroy_inode_cache,
    Teardown.sdcardfs_lower_super, Teardown.sdcardfs_set_lower_super,
    Teardown.packagelist_destroy, Teardown.kmem_cache_create,
    Teardown.kmem_cache_destroy, Teardown.atomic_dec_s_active,
    Teardown.path_put, Teardown.called, Teardown.in_kernel, Teardown.fault,
    Teardown.bind, Teardown.pure, Teardown.SDCARDFS_SB,
    kfree, log, alloc_attempt, emitted.

Ltac reduce_host :=
  cbn [fst snd Teardown.h_kernel Teardown.h_lower Teardown.h_cachep
       Teardown.h_caches Teardown.h_calls Teardown.set_kernel Teardown.set_lower
       Teardown.set_cachep Teardown.set_caches Teardown.set_calls
       Teardown.s_fs_info Teardown.options Teardown.label_block Teardown.lower_sb
       Teardown.obbpath_s Teardown.obbpath Teardown.pkgl_id
       k_vfs k_cred k_cred_live k_addr_limit k_heap k_alloc_plan
       k_icount k_inode_cachep k_log set_vfs set_cred set_addr_limit set_heap
       set_alloc_plan set_icount set_inode_cachep set_log].

Ltac reduce_host_in Hyp :=
  cbn [fst snd Teardown.h_kernel Teardown.h_lower Teardown.h_cachep
       Teardown.h_caches Teardown.h_calls] in Hyp.

(** X17.  sdcardfs_put_super does nothing to a superblock whose s_fs_info
    is NULL, and it leaves s_fs_info NULL: a second call after a first one
    changes nothing and frees nothing again. *)
Theorem put_super_torn_down (sb : Teardown.super_block) (h : Teardown.host (V := V)) :
  (Teardown.s_fs_info sb = None ->
     Teardown.sdcardfs_put_super sb h = Some (sb, h)) /\
  (forall sb' h',
     Teardown.sdcardfs_put_super sb h = Some (sb', h') ->
     Teardown.s_fs_info sb' = None /\
     Teardown.sdcardfs_put_super sb' h' = Some (sb', h')).
Proof.
  destruct sb as [[[a spd]|]]; split.
  - discriminate.
  - intros sb' h'. unfold_teardown. reduce_host.
    destruct (Teardown.obbpath_s spd), (label (Teardown.options spd)),
      (Teardown.lower_sb spd) as [l|]; reduce_host; try discriminate;
      destruct (Teardown.h_lower h !! l); reduce_host; try discriminate;
      intros [= <- <-]; split; reflexivity.
  - reflexivity.
  - intros sb' h' [= <- <-]. split; reflexivity.
Qed.

(** X18.  On a mounted superblock whose mount state points to an existing
    lower superblock, sdcardfs_put_super succeeds: it frees exactly the
    blocks the mount owns (the obb path copy and the label where set, the
    mount state), each once, puts the obb path exactly when its copy is
    set, takes one off the active count of the lower superblock and of no
    other, and leaves s_fs_info NULL. *)
Theorem put_super_releases (sb : Teardown.super_block) (h : Teardown.host (V := V))
    (a : addr) (spd : Teardown.sdcardfs_sb_info) (l : addr)
    (ls : Teardown.lower_super_block) :
  Teardown.s_fs_info sb = Some (a, spd) ->
  Teardown.lower_sb spd = Some l ->
  Teardown.h_lower h !! l = Some ls ->
  exists h',
    Teardown.sdcardfs_put_super sb h = Some ({| Teardown.s_fs_info := None |}, h') /\
    let evs := emitted (Teardown.h_kernel h) (Teardown.h_kernel h') in
    freed evs = owned_blocks a spd /\
    k_heap (Teardown.h_kernel h')
      = k_heap (Teardown.h_kernel h) ∖ list_to_set (owned_blocks a spd) /\
    path_puts evs = match Teardown.obbpath_s spd with
                    | Some _ => [Teardown.obbpath spd]
                    | None => []
                    end /\
    Teardown.h_lower h'
      = <[l := {| Teardown.s_active := Teardown.s_active ls - 1;
                  Teardown.s_op_umount_begin := Teardown.s_op_umount_begin ls |}]>
          (Teardown.h_lower h) /\
    Teardown.h_calls h' = Teardown.h_calls h /\
    Teardown.h_caches h' = Teardown.h_caches h.
Proof.
  clear lower_umount_begin.
  destruct sb as [sbi]. cbn [Teardown.s_fs_info]. intros -> Hl Hls.
  destruct h as [[v c live seg heap plan ic cache lg] lower cp caches calls].
  unfold_teardown. unfold owned_blocks. reduce_host. reduce_host_in Hls.
  rewrite Hl.
  destruct (Teardown.obbpath_s spd) as [s|], (label (Teardown.options spd));
    reduce_host; rewrite Hls; reduce_host; eexists; (split; [reflexivity|]);
    reduce_host; rewrite <- ?app_assoc, ?drop_app_length;
    cbn [app list_to_set];
    (repeat split; try reflexivity);
    apply set_eq; intros x; set_unfold; tauto.
Qed.

(** X19.  On a mounted superblock, sdcardfs_umount_begin first forwards to
    the umount_begin of the lower superblock, if there is a lower
    superblock and it has one, and then destroys the package list, if the
    mount has one, with the type of the mount; it frees nothing, logs
    nothing and leaves the lower superblocks and the caches alone. *)
Theorem umount_begin_forwards_first (sb : Teardown.super_block)
    (h : Teardown.host (V := V)) (a : addr) (spd : Teardown.sdcardfs_sb_info) :
  Teardown.s_fs_info sb = Some (a, spd) ->
  (forall l, Teardown.lower_sb spd = Some l -> is_Some (Teardown.h_lower h !! l)) ->
  let hooked :=
    match Teardown.lower_sb spd with
    | Some l =>
        match Teardown.h_lower h !! l with
        | Some ls => if Teardown.s_op_umount_begin ls then Some l else None
        | None => None
        end
    | None => None
    end in
  exists h',
    Teardown.sdcardfs_umount_begin lower_umount_begin sb h = Some (tt, h') /\
    Teardown.h_calls h'
      = Teardown.h_calls h
        ++ match hooked with Some l => [Teardown.LowerUmountBegin l] | None => [] end
        ++ match Teardown.pkgl_id spd with
           | Some id => [Teardown.PackagelistDestroy id (type (Teardown.options spd))]
           | None => []
           end /\
    k_vfs (Teardown.h_kernel h')
      = match hooked with
        | Some l => lower_umount_begin l (k_vfs (Teardown.h_kernel h))
        | None => k_vfs (Teardown.h_kernel h)
        end /\
    k_heap (Teardown.h_kernel h') = k_heap (Teardown.h_kernel h) /\
    k_log (Teardown.h_kernel h') = k_log (Teardown.h_kernel h) /\
    Teardown.h_lower h' = Teardown.h_lower h /\
    Teardown.h_caches h' = Teardown.h_caches h.
Proof.
  destruct sb as [sbi]. cbn [Teardown.s_fs_info]. intros -> Hvalid. cbn zeta.
  destruct h as [[v c live seg heap plan ic cache lg] lower cp caches calls].
  unfold_teardown. reduce_host. reduce_host_in Hvalid.
  destruct (Teardown.lower_sb spd) as [l|]; reduce_host.
  - destruct (Hvalid l eq_refl) as [ls Hls]. rewrite Hls.
    destruct (Teardown.s_op_umount_begin ls), (Teardown.pkgl_id spd);
      reduce_host; eexists; (split; [reflexivity|]); reduce_host;
      rewrite <- ?app_assoc, ?app_nil_r; repeat split; reflexivity.
  - destruct (Teardown.pkgl_id spd);
      reduce_host; eexists; (split; [reflexivity|]); reduce_host;
      rewrite ?app_nil_r; repeat split; reflexivity.
Qed.

(** X20.  sdcardfs_init_inode_cache returns 0 with sdcardfs_inode_cachep
    set to a cache that did not exist before, or -ENOMEM with the pointer
    NULL and no cache created.  sdcardfs_destroy_inode_cache after it
    leaves the caches that existed before (nothing to destroy after a
    failed init) and does not reset the pointer. *)
Theorem inode_cache_init_destroy (h : Teardown.host (V := V)) :
  exists err h1 h2,
    Teardown.sdcardfs_init_inode_cache h = Some (err, h1) /\
    Teardown.sdcardfs_destroy_inode_cache h1 = Some (tt, h2) /\
    (err = 0 /\
     (exists c, Teardown.h_cachep h1 = Some c /\ (c ∉ Teardown.h_caches h) /\
                Teardown.h_caches h1 = {[ c ]} ∪ Teardown.h_caches h) \/
     err = - ENOMEM /\ Teardown.h_cachep h1 = None /\
     Teardown.h_caches h1 = Teardown.h_caches h /\ h2 = h1) /\
    Teardown.h_caches h2 = Teardown.h_caches h /\
    Teardown.h_cachep h2 = Teardown.h_cachep h1.
Proof.
  destruct h as [[v c live seg heap plan ic cache lg] lower cp caches calls].
  unfold_teardown. reduce_host.
  destruct plan as [|[] plan]; reduce_host.
  all: eexists _, _, _; split; [reflexivity|]; reduce_host;
    (split; [reflexivity|]); reduce_host.
  1,2: split; [left; split; [reflexivity|]; eexists;
               split; [reflexivity | split; [apply is_fresh | reflexivity]]|];
       split; [apply heap_alloc_free | reflexivity].
  split; [right; repeat split; reflexivity | split; reflexivity].
Qed.

End TeardownProperties.

(** ** The properties on concrete inputs *)

(** An unlink of /foo.txt on a DEFAULT mount labelled abc, call by call:
    the three deletes fail or succeed independently, and the status of the
    last one is returned. *)
Example unlink_default_log :
  let k := sample_kernel [] in
  let r := sdcardfs_propagate_unlink (H := linux_3_18) (sample_unlinkat storage_only)
             (sample_parent TYPE_DEFAULT (Some "abc")) "/foo.txt" k in
  fst r = 0 /\
  emitted k (snd r) =
    [OverrideFsids 0 0 (Some {| fsuid := 1000; fsgid := 1000 |});
     Kmalloc 4096 208 (Some 1%positive);
     SetFs KERNEL_DS;
     Unlinkat (-100) "/mnt/runtime/read/abc/foo.txt" false (-2);
     Unlinkat (-100) "/mnt/runtime/write/abc/foo.txt" false (-2);
     Unlinkat (-100) "/storage/abc/foo.txt" false 0;
     SetFs USER_DS;
     RevertFsids {| fsuid := 1000; fsgid := 1000 |};
     Kfree 1%positive].
Proof. vm_compute. split; reflexivity. Qed.

(** A rename on a FULL mount goes through the four projections in the order
    of the table. *)
Example rename_full_pairs :
  let k := sample_kernel [] in
  let r := sdcardfs_propagate_rename (H := linux_3_18) (sample_renameat2 storage_only)
             (sample_parent TYPE_FULL (Some "abc")) "/a/old" "/a/new" k in
  fst r = 0 /\
  renamed (emitted k (snd r)) =
    [("/mnt/runtime/default/abc/a/old", "/mnt/runtime/default/abc/a/new");
     ("/mnt/runtime/read/abc/a/old", "/mnt/runtime/read/abc/a/new");
     ("/mnt/runtime/write/abc/a/old", "/mnt/runtime/write/abc/a/new");
     ("/storage/abc/a/old", "/storage/abc/a/new")].
Proof. vm_compute. split; reflexivity. Qed.

(** The second allocation of a rename fails: the identity is given back and
    the first buffer freed before -ENOMEM is returned. *)
Example rename_second_kmalloc_fails :
  let k := sample_kernel [true; true; false] in
  let r := sdcardfs_propagate_rename (H := linux_3_18) (sample_renameat2 storage_only)
             (sample_parent TYPE_FULL (Some "abc")) "/a/old" "/a/new" k in
  fst r = - 12 /\
  emitted k (snd r) =
    [OverrideFsids 0 0 (Some {| fsuid := 1000; fsgid := 1000 |});
     Kmalloc 4096 208 (Some 1%positive);
     Kmalloc 4096 208 None;
     Printk "sdcardfs: unlink propagate_new_path kmalloc fail\n" [];
     RevertFsids {| fsuid := 1000; fsgid := 1000 |};
     Kfree 1%positive].
Proof. vm_compute. split; reflexivity. Qed.

(** Without a reservation the backing statistics pass through, retagged. *)
Example statfs_passthrough :
  let b := sample_buf 4096 1000000 600000 500000 in
  fst (sdcardfs_statfs (H := linux_3_18) (sample_statfs 0 b) (sample_dentry 0) b
         (sample_kernel []))
  = (0, set_f_type b 0xb550ca10).
Proof. vm_compute. reflexivity. Qed.

Lemma statfs_reservation_witness :
  let b := sample_buf 4096 1000000 600000 500000 in
  let res := fst (sdcardfs_statfs (H := linux_3_18) (sample_statfs 0 b)
                    (sample_dentry 50) b (sample_kernel [])) in
  fst res = 0 /\
  f_blocks (snd res) = (1000000 - 50 * 2 ^ 20 / 4096) mod 2 ^ 64 /\
  f_bavail (snd res) = Z.max 0 (500000 - 50 * 2 ^ 20 / 4096) /\
  f_bfree (snd res) = f_bavail (snd res).
Proof.
  intros b.
  apply (statfs_reservation (H := linux_3_18) (sample_statfs 0 b)
           (sample_dentry 50) b (sample_kernel []) 0 b tt).
  - reflexivity.
  - reflexivity.
  - reflexivity.
  - reflexivity.
  - split; [discriminate | reflexivity].
  - repeat split; discriminate.
Defined.

(** C3 as stated fails twice.  A reservation of 4096 MB overflows the 32-bit
    product and nothing is subtracted; and where the backing total is below
    the reservation the u64 total wraps around. *)
Lemma statfs_reservation_counterexample :
  (let b := sample_buf 4096 2000000 1500000 1500000 in
   let res := fst (sdcardfs_statfs (H := linux_3_18) (sample_statfs 0 b)
                     (sample_dentry 4096) b (sample_kernel [])) in
   f_blocks (snd res) <> f_blocks b - 4096 * 2 ^ 20 / f_bsize b /\
   f_bavail (snd res) <> Z.max 0 (f_bavail b - 4096 * 2 ^ 20 / f_bsize b)) /\
  (let b := sample_buf 4096 100 50 50 in
   let res := fst (sdcardfs_statfs (H := linux_3_18) (sample_statfs 0 b)
                     (sample_dentry 1) b (sample_kernel [])) in
   f_blocks (snd res) <> f_blocks b - 1 * 2 ^ 20 / f_bsize b).
Proof.
  vm_compute. repeat split; discriminate.
Qed.

Lemma statfs_zero_block_size_witness :
  let b := sample_buf 0 1000000 600000 500000 in
  fst (fst (sdcardfs_statfs (H := linux_3_18) (sample_statfs 0 b)
              (sample_dentry 50) b (sample_kernel []))) = - 22.
Proof.
  intros b.
  apply (statfs_zero_block_size (H := linux_3_18) (sample_statfs 0 b)
           (sample_dentry 50) b (sample_kernel []) 0 b tt);
    reflexivity.
Defined.

Lemma statfs_type_tag_witness :
  let b := sample_buf 4096 1000000 600000 500000 in
  let res := fst (sdcardfs_statfs (H := linux_3_18) (sample_statfs (-5) b)
                    (sample_dentry 50) b (sample_kernel [])) in
  fst res = -5 /\ f_type (snd res) = 0xb550ca10 /\
  f_blocks (snd res) = 1000000 - 12800.
Proof.
  intros b res.
  destruct (statfs_type_tag (H := linux_3_18) (sample_statfs (-5) b)
              (sample_dentry 50) b (sample_kernel []) (-5) b tt eq_refl)
    as (_ & Htag & Hsub & _).
  destruct Htag as [Herr Hmagic]; [right; discriminate|].
  destruct Hsub as (Hblocks & _); [discriminate | discriminate |].
  exact (conj Herr (conj Hmagic Hblocks)).
Defined.

Lemma remount_whitelist_witness :
  let sb := sample_sb TYPE_DEFAULT (Some "emulated") 50 in
  fst (sdcardfs_remount_fs (H := linux_3_18) sb 3 "" (sample_kernel [])) = (- 22, sb, 3) /\
  fst (sdcardfs_remount_fs (H := linux_3_18) sb 65 "" (sample_kernel [])) = (0, sb, 65).
Proof.
  intros sb. split.
  - destruct (remount_whitelist (H := linux_3_18) sb 3 "" (sample_kernel []))
      as (Hout & _).
    apply Hout. exists 1. split; [lia | split; reflexivity].
  - destruct (remount_whitelist (H := linux_3_18) sb 65 "" (sample_kernel []))
      as (_ & Hin & _).
    apply Hin. apply (remount_mask_zero (H := linux_3_18)). reflexivity.
Defined.

Lemma evict_releases_binding_witness :
  let k := sample_kernel [] in
  let r := sdcardfs_evict_inode sample_stacked k in
  sdcardfs_lower_inode (fst r) = None /\
  released (emitted k (snd r)) = [Some 5%positive] /\
  k_icount (snd r) = alter Z.pred 5%positive (k_icount k).
Proof.
  intros k r.
  destruct (evict_releases_binding sample_stacked 5%positive
              (sample_sb TYPE_DEFAULT None 0) k eq_refl)
    as (Hclear & Hput & Hcount & _).
  exact (conj Hclear (conj Hput Hcount)).
Defined.

Lemma propagate_projections_witness :
  let parent := sample_parent TYPE_DEFAULT (Some "abc") in
  let k := sample_kernel [] in
  unlinked (emitted k (snd (sdcardfs_propagate_unlink (H := linux_3_18)
                              (sample_unlinkat storage_only) parent "/foo.txt" k)))
  = ["/mnt/runtime/read/abc/foo.txt"; "/mnt/runtime/write/abc/foo.txt";
     "/storage/abc/foo.txt"].
Proof.
  intros parent k.
  destruct (propagate_projections (H := linux_3_18) (sample_unlinkat storage_only)
              (sample_renameat2 storage_only) parent "/foo.txt" "/a" "/b" k)
    as (Hu & _ & _).
  rewrite Hu; [|vm_compute; reflexivity]. vm_compute. reflexivity.
Defined.

(** C1 as stated fails on a long name: the path attempted is not
    prefix + label + relative path but its first PATH_MAX - 1 characters. *)
Lemma propagate_projections_counterexample :
  let parent := sample_parent TYPE_DEFAULT (Some "abc") in
  let k := sample_kernel [] in
  let evs := emitted k (snd (sdcardfs_propagate_unlink (H := linux_3_18)
                               (sample_unlinkat storage_only) parent long_name k)) in
  allocations_succeed evs = true /\
  unlinked evs <> map (fun p => spec_path "abc" p long_name)
                      (List.filter (spec_active TYPE_DEFAULT) projections).
Proof.
  split; [vm_compute; reflexivity|].
  intros Heq. apply (f_equal (map (fun s => Z.of_nat (String.length s)))) in Heq.
  vm_compute in Heq. discriminate Heq.
Qed.

Lemma propagate_write_view_witness :
  let parent := sample_parent TYPE_WRITE (Some "abc") in
  let k := sample_kernel [] in
  renamed (emitted k (snd (sdcardfs_propagate_rename (H := linux_3_18)
                             (sample_renameat2 storage_only) parent "/a" "/b" k)))
  = [("/mnt/runtime/default/abc/a", "/mnt/runtime/default/abc/b");
     ("/mnt/runtime/read/abc/a", "/mnt/runtime/read/abc/b");
     ("/storage/abc/a", "/storage/abc/b")].
Proof.
  intros parent k.
  destruct (propagate_write_view (H := linux_3_18) (sample_unlinkat storage_only)
              (sample_renameat2 storage_only) parent "/foo.txt" "/a" "/b" k eq_refl)
    as (_ & Hr).
  rewrite Hr; [|vm_compute; reflexivity]. vm_compute. reflexivity.
Defined.

(** C2 as stated fails: a mount of type WRITE attempts three projections,
    the one under /mnt/runtime/read/ among them. *)
Lemma propagate_write_view_counterexample :
  let parent := sample_parent TYPE_WRITE (Some "abc") in
  let k := sample_kernel [] in
  let evs := emitted k (snd (sdcardfs_propagate_unlink (H := linux_3_18)
                               (sample_unlinkat storage_only) parent "/foo.txt" k)) in
  allocations_succeed evs = true /\
  unlinked evs = ["/mnt/runtime/default/abc/foo.txt"; "/mnt/runtime/read/abc/foo.txt";
                  "/storage/abc/foo.txt"] /\
  unlinked evs <> ["/mnt/runtime/default/abc/foo.txt"; "/storage/abc/foo.txt"].
Proof.
  repeat split; try (vm_compute; reflexivity).
  intros Heq. apply (f_equal length) in Heq. vm_compute in Heq. discriminate Heq.
Qed.

Lemma propagate_last_status_witness :
  let parent := sample_parent TYPE_FULL (Some "abc") in
  let k := sample_kernel [] in
  let ru := sdcardfs_propagate_unlink (H := linux_3_18)
              (sample_unlinkat storage_only) parent "/foo.txt" k in
  statuses (emitted k (snd ru)) = [-2; -2; -2; 0] /\
  last (statuses (emitted k (snd ru))) = Some (fst ru) /\
  length (statuses (emitted k (snd ru))) = 4%nat.
Proof.
  intros parent k ru. split; [vm_compute; reflexivity|].
  destruct (propagate_last_status (H := linux_3_18) (sample_unlinkat storage_only)
              (sample_renameat2 storage_only) parent "/foo.txt" "/a" "/b" k)
    as (Hu & _).
  apply Hu. vm_compute. discriminate.
Defined.

Lemma propagate_none_witness :
  let parent := sample_parent TYPE_NONE (Some "abc") in
  let k := sample_kernel [] in
  let ru := sdcardfs_propagate_unlink (H := linux_3_18)
              (sample_unlinkat storage_only) parent "/foo.txt" k in
  statuses (emitted k (snd ru)) = [] /\ fst ru = 0.
Proof.
  intros parent k ru.
  destruct (propagate_none (H := linux_3_18) (sample_unlinkat storage_only)
              (sample_renameat2 storage_only) parent "/foo.txt" "/a" "/b" k eq_refl)
    as (Hops & _ & Hret & _).
  split; [exact Hops | exact Hret].
Defined.

(** C6 as stated fails when override_fsids cannot allocate: the call on a
    mount of type NONE returns -ENOMEM. *)
Lemma propagate_none_counterexample :
  let parent := sample_parent TYPE_NONE (Some "abc") in
  let k := sample_kernel [false] in
  let ru := sdcardfs_propagate_unlink (H := linux_3_18)
              (sample_unlinkat storage_only) parent "/foo.txt" k in
  statuses (emitted k (snd ru)) = [] /\ fst ru = - 12 /\ fst ru <> 0.
Proof.
  vm_compute. repeat split; discriminate.
Qed.

(** *** The further properties on concrete inputs *)

(** The options of the sample mount state, as /proc/mounts shows them. *)
Example show_options_sample :
  sdcardfs_show_options "rw,nosuid"
    {| d_sb := {| s_fs_info := {| options := Teardown.options sample_spd |} |};
       d_lower_path := 1%positive |}
  = (0, "rw,nosuid,uid=1023,gid=1023,sdfs_mask6,multi_user,reserved=50MB").
Proof. vm_compute. reflexivity. Qed.

Lemma propagate_out_of_memory_witness :
  let k := sample_kernel [true; false] in
  let ru := sdcardfs_propagate_unlink (H := linux_3_18) (sample_unlinkat storage_only)
              (sample_parent TYPE_FULL (Some "abc")) "/foo.txt" k in
  fst ru = - 12 /\ statuses (emitted k (snd ru)) = [] /\ k_vfs (snd ru) = tt.
Proof.
  intros k ru.
  destruct (propagate_out_of_memory (H := linux_3_18) (sample_unlinkat storage_only)
              (sample_renameat2 storage_only) (sample_parent TYPE_FULL (Some "abc"))
              "/foo.txt" "/a" "/b" k) as (Hu & _).
  apply Hu. reflexivity.
Defined.

Lemma propagate_runs_as_root_witness :
  let k := sample_kernel [] in
  let rr := sdcardfs_propagate_rename (H := linux_3_18) (sample_renameat2 storage_only)
              (sample_parent TYPE_READ (Some "abc")) "/a" "/b" k in
  let rep := replay_renames (H := linux_3_18) (sample_renameat2 storage_only)
               {| fsuid := 0; fsgid := 0 |}
               (projected_pairs (H := linux_3_18)
                  (sample_parent TYPE_READ (Some "abc")) "/a" "/b") 0 tt in
  fst rr = snd (fst rep) /\ k_vfs (snd rr) = snd rep.
Proof.
  intros k rr rep.
  destruct (propagate_runs_as_root (H := linux_3_18) (sample_unlinkat storage_only)
              (sample_renameat2 storage_only) (sample_parent TYPE_READ (Some "abc"))
              "/foo.txt" "/a" "/b" k) as (_ & Hr).
  apply Hr. reflexivity.
Defined.


Lemma propagate_paths_fit_witness :
  let k := sample_kernel [] in
  Forall (fun p => Z.of_nat (String.length p) < 4096)
    (unlinked (emitted k (snd (sdcardfs_propagate_unlink (H := linux_3_18)
       (sample_unlinkat storage_only) (sample_parent TYPE_FULL (Some "abc"))
       long_name k)))).
Proof.
  intros k.
  destruct (propagate_paths_fit (H := linux_3_18) (sample_unlinkat storage_only)
              (sample_renameat2 storage_only) (sample_parent TYPE_FULL (Some "abc"))
              long_name "/a" "/b" k) as (Hu & _); [reflexivity|].
  exact Hu.
Defined.

Lemma propagate_storage_last_witness :
  let k := sample_kernel [] in
  let ru := sdcardfs_propagate_unlink (H := linux_3_18) (sample_unlinkat storage_only)
              (sample_parent TYPE_READ (Some "abc")) "/foo.txt" k in
  last (unlink_attempts (emitted k (snd ru))) = Some ("/storage/abc/foo.txt", fst ru).
Proof.
  intros k ru.
  destruct (propagate_storage_last (H := linux_3_18) (sample_unlinkat storage_only)
              (sample_renameat2 storage_only) (sample_parent TYPE_READ (Some "abc"))
              "/foo.txt" "/a" "/b" k) as (Hu & _); [discriminate|].
  apply Hu. reflexivity.
Defined.

Lemma propagate_skips_own_view_witness :
  let k := sample_kernel [] in
  Forall (fun p => String.prefix "/mnt/runtime/read/" p = false)
    (unlinked (emitted k (snd (sdcardfs_propagate_unlink (H := linux_3_18)
       (sample_unlinkat storage_only) (sample_parent TYPE_READ (Some "abc"))
       "/foo.txt" k)))).
Proof.
  intros k.
  destruct (propagate_skips_own_view (H := linux_3_18) (sample_unlinkat storage_only)
              (sample_renameat2 storage_only) (sample_parent TYPE_READ (Some "abc"))
              "/foo.txt" "/a" "/b" k "/mnt/runtime/read/" eq_refl) as (Hu & _).
  exact Hu.
Defined.

Lemma rename_follows_unlink_witness :
  let k := sample_kernel [] in
  let parent := sample_parent TYPE_DEFAULT (Some "abc") in
  map fst (renamed (emitted k (snd (sdcardfs_propagate_rename (H := linux_3_18)
             (sample_renameat2 storage_only) parent "/a" "/b" k))))
  = unlinked (emitted k (snd (sdcardfs_propagate_unlink (H := linux_3_18)
               (sample_unlinkat storage_only) parent "/a" k))).
Proof.
  intros k parent.
  destruct (rename_follows_unlink (H := linux_3_18) (sample_unlinkat storage_only)
              (sample_renameat2 storage_only) parent "/a" "/b" k eq_refl)
    as (Hold & _).
  exact Hold.
Defined.


Lemma statfs_reservation_wraps_witness :
  let b := sample_buf 4096 2000000 1500000 1500000 in
  let res := snd (fst (sdcardfs_statfs (H := linux_3_18) (sample_statfs 0 b)
                         (sample_dentry 4096) b (sample_kernel []))) in
  f_blocks res = 2000000 /\ f_bavail res = 1500000.
Proof.
  intros b res.
  destruct (statfs_reservation_wraps (H := linux_3_18) (sample_statfs 0 b)
              (sample_dentry 4096) b (sample_kernel []) 0 b tt eq_refl)
    as (_ & _ & _ & Hnone).
  - discriminate.
  - reflexivity.
  - split; [discriminate | reflexivity].
  - repeat split; discriminate.
  - apply Hnone. reflexivity.
Defined.

Lemma remount_ignores_whitelisted_witness :
  let sb := sample_sb TYPE_DEFAULT (Some "emulated") 50 in
  let ret f := fst (fst (fst (sdcardfs_remount_fs (H := linux_3_18) sb f ""
                                (sample_kernel [])))) in
  ret (Z.lor 2 1) = ret 2 /\ ret (Z.land 2 (Z.lnot 1)) = ret 2.
Proof.
  intros sb ret.
  apply (remount_ignores_whitelisted (H := linux_3_18) sb 2 1 "" (sample_kernel [])).
  left. reflexivity.
Defined.

Lemma put_super_torn_down_witness :
  Teardown.sdcardfs_put_super {| Teardown.s_fs_info := None |} sample_host
  = Some ({| Teardown.s_fs_info := None |}, sample_host).
Proof.
  destruct (put_super_torn_down {| Teardown.s_fs_info := None |} sample_host)
    as (Hnull & _).
  apply Hnull. reflexivity.
Defined.

Lemma put_super_releases_witness :
  exists h',
    Teardown.sdcardfs_put_super sample_mounted sample_host
    = Some ({| Teardown.s_fs_info := None |}, h') /\
    freed (emitted (Teardown.h_kernel sample_host) (Teardown.h_kernel h'))
    = [22%positive; 21%positive; 20%positive].
Proof.
  destruct (put_super_releases sample_mounted sample_host 20%positive sample_spd
              9%positive
              {| Teardown.s_active := 2; Teardown.s_op_umount_begin := true |}
              eq_refl eq_refl) as (h' & Hrun & Hfreed & _).
  - vm_compute. reflexivity.
  - exists h'. split; [exact Hrun | exact Hfreed].
Defined.

Lemma umount_begin_forwards_first_witness :
  exists h',
    Teardown.sdcardfs_umount_begin (fun _ v => v) sample_mounted sample_host
    = Some (tt, h') /\
    Teardown.h_calls h'
    = [Teardown.LowerUmountBegin 9%positive;
       Teardown.PackagelistDestroy 30%positive TYPE_WRITE].
Proof.
  destruct (umount_begin_forwards_first (fun _ v => v) sample_mounted sample_host
              20%positive sample_spd eq_refl) as (h' & Hrun & Hcalls & _).
  - intros l [= <-]. eexists. vm_compute. reflexivity.
  - exists h'. split; [exact Hrun|]. rewrite Hcalls. vm_compute. reflexivity.
Defined.

